(** * django-admin-filtrate

    A shallow embedding of [filtrate/filters.py]: the base admin list filter
    [FiltrateFilter], the [DateRangeFilter] and the [TreeFilter], together
    with the small part of Python (exceptions, [str.split], [int], [str],
    [json.dumps]) and of Django (request query dictionaries, query sets,
    [SimpleListFilter], form media) that the three classes rest on.  The
    statements come after the definitions: first the ones about query
    translation, construction, media and tree serialization, then further
    properties of the same functions and of the rendering ([choices],
    [get_content]).

    Python strings are [string]s whose characters stand for the code points
    0..255; Python integers are [Z]. *)

From Stdlib Require Import List String Ascii ZArith NArith Bool Lia.
Import ListNotations.

Set Warnings "-register-all".
#[local] Set Warnings "-notation-overridden".

Local Open Scope list_scope.

Ltac ascii_cases c :=
  destruct c as [[|] [|] [|] [|] [|] [|] [|] [|]].

(** ** Python: exceptions and results *)

Module Py.

Inductive PyExc : Type :=
| AttributeError
| IndexError
| TypeError
| ValueError
| KeyError
| NotImplementedError
| Exception_ (msg : string).

(** The outcome of evaluating a Python expression: a value, or a raised
    exception that nothing in [filters.py] catches. *)
Inductive Result (A : Type) : Type :=
| Ok (a : A)
| Raise (e : PyExc).

Arguments Ok {A} a.
Arguments Raise {A} e.

Definition bind {A B : Type} (c : Result A) (f : A -> Result B) : Result B :=
  match c with
  | Ok a => f a
  | Raise e => Raise e
  end.

Definition is_ok {A : Type} (c : Result A) : bool :=
  match c with
  | Ok _ => true
  | Raise _ => false
  end.

(** [for x in xs: ...] where the body may raise: the first exception stops
    the loop. *)
Definition mapM {A B : Type} (f : A -> Result B) : list A -> Result (list B) :=
  fix go (xs : list A) : Result (list B) :=
    match xs with
    | [] => Ok []
    | x :: xs' => bind (f x) (fun y => bind (go xs') (fun ys => Ok (y :: ys)))
    end.

(** ** Python: characters, decimal numerals, [str(int)] and [int(str)] *)

Definition dquote : ascii := "034"%char.
Definition backslash : ascii := "092"%char.

Definition digit_char (d : N) : ascii := ascii_of_N (48 + d).

Definition digit_val (c : ascii) : option N :=
  let n := N_of_ascii c in
  if ((48 <=? n) && (n <=? 57))%N then Some (n - 48)%N else None.

Definition is_digit (c : ascii) : bool :=
  match digit_val c with
  | Some _ => true
  | None => false
  end.

(** The decimal digits of [n], most significant first, put in front of
    [acc]; [fuel] bounds the number of digits. *)
Fixpoint digits_acc (fuel : nat) (n : N) (acc : list ascii) : list ascii :=
  match fuel with
  | O => acc
  | S fuel' =>
      let acc' := digit_char (n mod 10) :: acc in
      if (n <? 10)%N then acc' else digits_acc fuel' (n / 10) acc'
  end.

(** A number has no more decimal digits than binary ones. *)
Definition digits_fuel (n : N) : nat := S (N.to_nat (N.log2 n)).

Definition print_N (n : N) (k : list ascii) : list ascii :=
  digits_acc (digits_fuel n) n k.

Definition print_int (z : Z) (k : list ascii) : list ascii :=
  match z with
  | Z0 => print_N 0 k
  | Zpos p => print_N (Npos p) k
  | Zneg p => "-"%char :: print_N (Npos p) k
  end.

(** [str(z)] for an int [z]. *)
Definition str_int (z : Z) : string := string_of_list_ascii (print_int z []).

(** Reads the longest run of decimal digits in front of [s], continuing the
    value [acc]. *)
Fixpoint read_digits (acc : N) (s : list ascii) : N * list ascii :=
  match s with
  | [] => (acc, [])
  | c :: r =>
      match digit_val c with
      | Some d => read_digits (10 * acc + d) r
      | None => (acc, s)
      end
  end.

(** The characters [int] skips around a literal, among the code points
    0..255: the C whitespace (9..13 and 32), and the two spaces beyond ASCII
    (133 and 160), which [int] first turns into [' '].  Unlike
    [str.isspace], this leaves out 28..31. *)
Definition int_space (c : ascii) : bool :=
  let n := N_of_ascii c in
  (((9 <=? n) && (n <=? 13)) || (n =? 32) || (n =? 133) || (n =? 160))%N.

Fixpoint lstrip (s : list ascii) : list ascii :=
  match s with
  | [] => []
  | c :: r => if int_space c then lstrip r else s
  end.

Definition strip (s : list ascii) : list ascii :=
  rev (lstrip (rev (lstrip s))).

(** The digits of an int literal after its sign: decimal digits, with single
    underscores allowed between two digits. *)
Fixpoint int_digits (acc : N) (s : list ascii) : option N :=
  match s with
  | [] => Some acc
  | c :: r =>
      match digit_val c with
      | Some d => int_digits (10 * acc + d) r
      | None =>
          if Ascii.eqb c "_" then
            match r with
            | c' :: r' =>
                match digit_val c' with
                | Some d => int_digits (10 * acc + d) r'
                | None => None
                end
            | [] => None
            end
          else None
      end
  end.

Definition int_unsigned (s : list ascii) : option N :=
  match s with
  | [] => None
  | c :: r =>
      match digit_val c with
      | Some d => int_digits d r
      | None => None
      end
  end.

(** The digits among the characters of [s]: what [int] counts against its
    limit (underscores do not count, leading zeros do). *)
Fixpoint count_digits (s : list ascii) : N :=
  match s with
  | [] => 0%N
  | c :: r => if is_digit c then N.succ (count_digits r) else count_digits r
  end.

(** [sys.int_info.default_max_str_digits]: the longest literal [int]
    converts, unless the interpreter is configured otherwise. *)
Definition max_str_digits : N := 4300.

(** [int(s)] in base 10: surrounding whitespace is dropped, then come an
    optional sign and the digits; anything else raises [ValueError], and so
    does a literal of more than [max_str_digits] digits. *)
Definition int (s : string) : Result Z :=
  let body := strip (list_ascii_of_string s) in
  let '(negative, ds) :=
    match body with
    | c :: r =>
        if Ascii.eqb c "-" then (true, r)
        else if Ascii.eqb c "+" then (false, r)
        else (false, body)
    | [] => (false, body)
    end in
  match int_unsigned ds with
  | Some n =>
      if (max_str_digits <? count_digits ds)%N then Raise ValueError
      else Ok (if negative then (- Z.of_N n)%Z else Z.of_N n)
  | None => Raise ValueError
  end.

(** The number of digits of [str(z)]. *)
Definition decimal_digits (z : Z) : N :=
  count_digits (list_ascii_of_string (str_int z)).

(** [s.split(sep)] for a one-character separator: every occurrence cuts, and
    the result always has at least one field. *)
Fixpoint split (sep : ascii) (s : string) : list string :=
  match s with
  | EmptyString => [EmptyString]
  | String c r =>
      if Ascii.eqb c sep then EmptyString :: split sep r
      else
        match split sep r with
        | h :: t => String c h :: t
        | [] => [String c EmptyString]
        end
  end.

(** [sep.join(parts)]. *)
Definition join (sep : string) (parts : list string) : string :=
  String.concat sep parts.

(** [x in xs] for a list of ints. *)
Definition contains (x : Z) (xs : list Z) : bool := existsb (Z.eqb x) xs.

End Py.

Export Py.

Notation "x <- c1 ;; c2" := (bind c1 (fun x => c2))
  (at level 61, c1 at next level, right associativity).

(** ** Python: the [json] module

    [json.dumps] with its default options ([ensure_ascii=True], separators
    [", "] and [": "]) on the values [filters.py] builds: dicts with string
    keys (in insertion order), lists, strings, ints and booleans.  [loads] is
    the reader a client applies to that text. *)

Module Json.

Inductive json : Type :=
| JNull
| JBool (b : bool)
| JInt (z : Z)
| JStr (s : string)
| JList (items : list json)
| JDict (members : list (string * json)).

Definition lit (s : string) (k : list ascii) : list ascii :=
  list_ascii_of_string s ++ k.

Definition hex_char (d : N) : ascii :=
  if (d <? 10)%N then ascii_of_N (48 + d) else ascii_of_N (87 + d).

(** One character of a string as [json.dumps] writes it: the quote and the
    backslash are escaped, the usual control characters get their short
    escapes, and every other character outside [' '..'~'] is written
    [\u00xx]. *)
Definition escape_char (c : ascii) : list ascii :=
  let n := N_of_ascii c in
  if Ascii.eqb c dquote then [backslash; dquote]
  else if Ascii.eqb c backslash then [backslash; backslash]
  else if (n =? 8)%N then [backslash; "b"%char]
  else if (n =? 12)%N then [backslash; "f"%char]
  else if (n =? 10)%N then [backslash; "n"%char]
  else if (n =? 13)%N then [backslash; "r"%char]
  else if (n =? 9)%N then [backslash; "t"%char]
  else if ((n <? 32) || (126 <? n))%N then
    [backslash; "u"%char; "0"%char; "0"%char; hex_char (n / 16); hex_char (n mod 16)]
  else [c].

Fixpoint print_chars (s : string) (k : list ascii) : list ascii :=
  match s with
  | EmptyString => k
  | String c r => escape_char c ++ print_chars r k
  end.

Definition print_string (s : string) (k : list ascii) : list ascii :=
  dquote :: print_chars s (dquote :: k).

Definition print_items (pr : json -> list ascii -> list ascii)
  (k : list ascii) : bool -> list json -> list ascii :=
  fix go (first : bool) (l : list json) {struct l} : list ascii :=
    match l with
    | [] => "]"%char :: k
    | x :: xs =>
        let rest := pr x (go false xs) in
        if first then rest else lit ", " rest
    end.

Definition print_members (pr : json -> list ascii -> list ascii)
  (k : list ascii) : bool -> list (string * json) -> list ascii :=
  fix go (first : bool) (m : list (string * json)) {struct m} : list ascii :=
    match m with
    | [] => "}"%char :: k
    | (key, v) :: ms =>
        let rest := print_string key (lit ": " (pr v (go false ms))) in
        if first then rest else lit ", " rest
    end.

(** The text of [j], put in front of [k]. *)
Fixpoint print_json (j : json) (k : list ascii) {struct j} : list ascii :=
  match j with
  | JNull => lit "null" k
  | JBool true => lit "true" k
  | JBool false => lit "false" k
  | JInt z => print_int z k
  | JStr s => print_string s k
  | JList l => "["%char :: print_items print_json k true l
  | JDict m => "{"%char :: print_members print_json k true m
  end.

Definition dumps (j : json) : string := string_of_list_ascii (print_json j []).

(** *** Reading *)

Definition is_ws (c : ascii) : bool :=
  Ascii.eqb c " " || Ascii.eqb c "009" || Ascii.eqb c "010" || Ascii.eqb c "013".

Fixpoint skip_ws (s : list ascii) : list ascii :=
  match s with
  | [] => []
  | c :: r => if is_ws c then skip_ws r else s
  end.

Definition hex_val (c : ascii) : option N :=
  let n := N_of_ascii c in
  if ((48 <=? n) && (n <=? 57))%N then Some (n - 48)%N
  else if ((97 <=? n) && (n <=? 102))%N then Some (n - 87)%N
  else if ((65 <=? n) && (n <=? 70))%N then Some (n - 55)%N
  else None.

(** [\uXXXX]: the code point, when it is one of 0..255. *)
Definition hex4 (a b c d : ascii) : option ascii :=
  match hex_val a, hex_val b, hex_val c, hex_val d with
  | Some x, Some y, Some z, Some w =>
      if ((x =? 0) && (y =? 0))%N then Some (ascii_of_N (16 * z + w)) else None
  | _, _, _, _ => None
  end.

Definition unescape (e : ascii) : option ascii :=
  if Ascii.eqb e dquote then Some dquote
  else if Ascii.eqb e backslash then Some backslash
  else if Ascii.eqb e "/" then Some "/"%char
  else if Ascii.eqb e "b" then Some "008"%char
  else if Ascii.eqb e "f" then Some "012"%char
  else if Ascii.eqb e "n" then Some "010"%char
  else if Ascii.eqb e "r" then Some "013"%char
  else if Ascii.eqb e "t" then Some "009"%char
  else None.

Definition cons_char (c : ascii) (r : option (string * list ascii)) :
  option (string * list ascii) :=
  match r with
  | Some (s, rest) => Some (String c s, rest)
  | None => None
  end.

(** The characters of a string up to its closing quote. *)
Fixpoint parse_chars (s : list ascii) : option (string * list ascii) :=
  match s with
  | [] => None
  | c :: r =>
      if Ascii.eqb c dquote then Some (EmptyString, r)
      else if Ascii.eqb c backslash then
        match r with
        | [] => None
        | e :: r' =>
            if Ascii.eqb e "u" then
              match r' with
              | h1 :: h2 :: h3 :: h4 :: r'' =>
                  match hex4 h1 h2 h3 h4 with
                  | Some ch => cons_char ch (parse_chars r'')
                  | None => None
                  end
              | _ => None
              end
            else
              match unescape e with
              | Some ch => cons_char ch (parse_chars r')
              | None => None
              end
        end
      else if (N_of_ascii c <? 32)%N then None
      else cons_char c (parse_chars r)
  end.

(** An integer: an optional minus sign, then [0] or a digit [1..9] followed
    by digits. *)
Definition parse_nat (s : list ascii) : option (N * list ascii) :=
  match s with
  | [] => None
  | c :: r =>
      match digit_val c with
      | Some 0%N => Some (0%N, r)
      | Some d => Some (read_digits d r)
      | None => None
      end
  end.

Definition parse_number (s : list ascii) : option (json * list ascii) :=
  match s with
  | [] => None
  | c :: r =>
      if Ascii.eqb c "-" then
        match parse_nat r with
        | Some (n, r') => Some (JInt (- Z.of_N n), r')
        | None => None
        end
      else
        match parse_nat s with
        | Some (n, r') => Some (JInt (Z.of_N n), r')
        | None => None
        end
  end.

Fixpoint strip_prefix (p s : list ascii) : option (list ascii) :=
  match p with
  | [] => Some s
  | c :: p' =>
      match s with
      | [] => None
      | d :: s' => if Ascii.eqb c d then strip_prefix p' s' else None
      end
  end.

Definition keyword (w : string) (v : json) (s : list ascii) :
  option (json * list ascii) :=
  match strip_prefix (list_ascii_of_string w) s with
  | Some r => Some (v, r)
  | None => None
  end.

(** The elements of an array after the first has been announced: a value,
    then either a comma and more elements or the closing bracket. *)
Fixpoint parse_items (pv : list ascii -> option (json * list ascii))
  (n : nat) (s : list ascii) : option (list json * list ascii) :=
  match n with
  | O => None
  | S n' =>
      match pv s with
      | None => None
      | Some (v, r) =>
          match skip_ws r with
          | [] => None
          | c :: r' =>
              if Ascii.eqb c "," then
                match parse_items pv n' r' with
                | Some (vs, r'') => Some (v :: vs, r'')
                | None => None
                end
              else if Ascii.eqb c "]" then Some ([v], r')
              else None
          end
      end
  end.

Fixpoint parse_members (pv : list ascii -> option (json * list ascii))
  (n : nat) (s : list ascii) : option (list (string * json) * list ascii) :=
  match n with
  | O => None
  | S n' =>
      match skip_ws s with
      | [] => None
      | q :: r =>
          if Ascii.eqb q dquote then
            match parse_chars r with
            | None => None
            | Some (key, r1) =>
                match skip_ws r1 with
                | [] => None
                | c :: r2 =>
                    if Ascii.eqb c ":" then
                      match pv r2 with
                      | None => None
                      | Some (v, r3) =>
                          match skip_ws r3 with
                          | [] => None
                          | d :: r4 =>
                              if Ascii.eqb d "," then
                                match parse_members pv n' r4 with
                                | Some (ms, r5) => Some ((key, v) :: ms, r5)
                                | None => None
                                end
                              else if Ascii.eqb d "}" then Some ([(key, v)], r4)
                              else None
                          end
                      end
                    else None
                end
            end
          else None
      end
  end.

(** One value, given the reader [pv] for the values nested in it. *)
Definition parse_value_step (pv : list ascii -> option (json * list ascii))
  (s : list ascii) : option (json * list ascii) :=
  match skip_ws s with
  | [] => None
  | c :: r =>
      if Ascii.eqb c "[" then
        match skip_ws r with
        | [] => None
        | c' :: r' =>
            if Ascii.eqb c' "]" then Some (JList [], r')
            else
              match parse_items pv (List.length r) r with
              | Some (l, r'') => Some (JList l, r'')
              | None => None
              end
        end
      else if Ascii.eqb c "{" then
        match skip_ws r with
        | [] => None
        | c' :: r' =>
            if Ascii.eqb c' "}" then Some (JDict [], r')
            else
              match parse_members pv (List.length r) r with
              | Some (m, r'') => Some (JDict m, r'')
              | None => None
              end
        end
      else if Ascii.eqb c dquote then
        match parse_chars r with
        | Some (str, r') => Some (JStr str, r')
        | None => None
        end
      else if Ascii.eqb c "t" then keyword "rue" (JBool true) r
      else if Ascii.eqb c "f" then keyword "alse" (JBool false) r
      else if Ascii.eqb c "n" then keyword "ull" JNull r
      else parse_number (c :: r)
  end.

(** One value; [fuel] bounds the nesting depth. *)
Fixpoint parse_value (fuel : nat) (s : list ascii) {struct fuel} :
  option (json * list ascii) :=
  match fuel with
  | O => None
  | S fuel' => parse_value_step (parse_value fuel') s
  end.

(** The whole text is one value, with nothing but whitespace after it. *)
Definition loads (s : string) : option json :=
  let cs := list_ascii_of_string s in
  match parse_value (List.length cs) cs with
  | Some (j, r) =>
      match skip_ws r with
      | [] => Some j
      | _ :: _ => None
      end
  | None => None
  end.

(** *** Measures and induction over values *)

Fixpoint depth (j : json) : nat :=
  match j with
  | JList l => S (fold_right (fun x d => Nat.max (depth x) d) 0 l)
  | JDict m => S (fold_right (fun kv d => Nat.max (depth (snd kv)) d) 0 m)
  | _ => 0
  end.

Definition json_ind' (P : json -> Prop)
  (Hnull : P JNull) (Hbool : forall b, P (JBool b)) (Hint : forall z, P (JInt z))
  (Hstr : forall s, P (JStr s))
  (Hlist : forall l, Forall P l -> P (JList l))
  (Hdict : forall m, Forall (fun kv => P (snd kv)) m -> P (JDict m)) :
  forall j, P j :=
  fix go (j : json) : P j :=
    match j with
    | JNull => Hnull
    | JBool b => Hbool b
    | JInt z => Hint z
    | JStr s => Hstr s
    | JList l =>
        Hlist l
          ((fix all (l : list json) : Forall P l :=
              match l with
              | [] => Forall_nil P
              | x :: xs => Forall_cons x (go x) (all xs)
              end) l)
    | JDict m =>
        Hdict m
          ((fix all (m : list (string * json)) : Forall (fun kv => P (snd kv)) m :=
              match m with
              | [] => Forall_nil _
              | (key, v) :: ms =>
                  Forall_cons (P := fun kv => P (snd kv)) (key, v) (go v) (all ms)
              end) m)
    end.

(** What may follow a number: anything but a digit. *)
Definition no_digit_head (k : list ascii) : Prop :=
  match k with
  | [] => True
  | c :: _ => digit_val c = None
  end.

(** With nesting fuel [f], the text of [x] is read back as [x], whatever
    follows it. *)
Definition reads_back (f : nat) (x : json) : Prop :=
  forall k', no_digit_head k' -> parse_value f (print_json x k') = Some (x, k').

(** The first character of a value: no whitespace, no closing bracket. *)
Definition value_head (s : list ascii) : Prop :=
  match s with
  | [] => False
  | c :: _ => is_ws c = false /\ Ascii.eqb c "]" = false
  end.

End Json.

Export Json.

(** ** Django: what the filters use of the framework *)

Module Django.

Local Open Scope string_scope.

(** A mapping from strings to strings in insertion order ([request.GET], the
    [params] dict, a form's [data]), given by the list of its assignments: a
    key stands where it was first assigned and holds what was assigned to it
    last.  For a query string this is the view [QueryDict] gives through
    [keys()], [get()] and [[]]. *)
Definition Dict : Type := list (string * string).

Fixpoint dict_get (d : Dict) (key : string) : option string :=
  match d with
  | [] => None
  | (k, v) :: d' =>
      match dict_get d' key with
      | Some v' => Some v'
      | None => if k =? key then Some v else None
      end
  end.

(** [d[key]]; a missing key raises ([MultiValueDictKeyError] is a
    [KeyError]). *)
Definition dict_getitem (d : Dict) (key : string) : Result string :=
  match dict_get d key with
  | Some v => Ok v
  | None => Raise KeyError
  end.

Fixpoint dict_keys (d : Dict) : list string :=
  match d with
  | [] => []
  | (k, _) :: d' => k :: filter (fun k' => negb (k' =? k)) (dict_keys d')
  end.

Definition dict_contains (d : Dict) (key : string) : bool :=
  existsb (fun kv => fst kv =? key) d.

(** [d.pop(key)]: what is left of [d]. *)
Definition dict_remove (d : Dict) (key : string) : Dict :=
  filter (fun kv => negb (fst kv =? key)) d.

(** [d[key] = v]. *)
Definition dict_set (d : Dict) (key v : string) : Dict := (d ++ [(key, v)])%list.

Record HttpRequest : Type := { GET : Dict }.

(** *** Query sets

    A query set is the record of the calls that built it; [filter] and
    [exclude] return a new query set and leave the one they are called on as
    it was. *)

Inductive Arg : Type :=
| AStr (s : string)
| AInts (ids : list Z).

Definition Kwargs : Type := list (string * Arg).

Inductive QuerySet : Type :=
| QAll
| QFilter (q : QuerySet) (kwargs : Kwargs)
| QExclude (q : QuerySet) (kwargs : Kwargs).

(** The rows of a query set over a table, given how the record store reads
    one keyword argument on one row: [filter] keeps the rows that satisfy
    every keyword argument, [exclude] the others. *)
Section Rows.

Variable Row : Type.
Variable lookup : string -> Arg -> Row -> bool.

Definition satisfies (kwargs : Kwargs) (r : Row) : bool :=
  forallb (fun kv => lookup (fst kv) (snd kv) r) kwargs.

Fixpoint rows (table : list Row) (q : QuerySet) : list Row :=
  match q with
  | QAll => table
  | QFilter q' kwargs => filter (satisfies kwargs) (rows table q')
  | QExclude q' kwargs => filter (fun r => negb (satisfies kwargs r)) (rows table q')
  end.

End Rows.

(** *** Form media

    An inner [class Media] declares [css] (medium to paths) and [js] (paths).
    Django's [Media] objects are built from such a declaration, added with
    [+], and read back through [_css] and [_js]; how [+] orders and merges
    the paths is the framework's, and is left open here. *)

Record MediaDecl : Type := {
  css : list (string * list string);
  js : list string
}.

Class MediaLib : Type := {
  Media : Type;
  Media_new : option MediaDecl -> Media;
  Media_add : Media -> Media -> Media;
  Media_css : Media -> list (string * list string);
  Media_js : Media -> list string
}.

Inductive MediaType : Type := MT_css | MT_js.

Definition MEDIA_TYPES : list MediaType := [MT_css; MT_js].

(** The model admin, as far as the filters touch it: the [Media] class
    reached through [model_admin.Media], if there is one.  It outlives the
    request. *)
Record ModelAdmin : Type := { admin_Media : option MediaDecl }.

(** One instance of the media library, for the examples only: paths are
    appended in order, one not yet present at a time (the merge of early
    Django; later versions order the paths by a topological sort).  No
    statement depends on it. *)
Definition add_new (xs ys : list string) : list string :=
  fold_left (fun acc y => if existsb (String.eqb y) acc then acc else (acc ++ [y])%list) ys xs.

Fixpoint add_medium (c : list (string * list string)) (medium : string)
  (paths : list string) : list (string * list string) :=
  match c with
  | [] => [(medium, add_new [] paths)]
  | (m, ps) :: c' =>
      if m =? medium then (m, add_new ps paths) :: c'
      else (m, ps) :: add_medium c' medium paths
  end.

Definition append_media (a b : MediaDecl) : MediaDecl :=
  {| css := fold_left (fun c mp => add_medium c (fst mp) (snd mp)) (css b) (css a);
     js := add_new (js a) (js b) |}.

Definition empty_media : MediaDecl := {| css := []; js := [] |}.

Definition AppendMedia : MediaLib :=
  {| Media := MediaDecl;
     Media_new := fun d =>
       match d with
       | Some decl => append_media empty_media decl
       | None => empty_media
       end;
     Media_add := append_media;
     Media_css := css;
     Media_js := js |}.

(** *** [SimpleListFilter]

    Its constructor moves the filter's own parameter from [params] to
    [used_parameters]; [value()] reads it back, [None] when the request did
    not carry it. *)
Definition SimpleListFilter_init (parameter_name : string) (params : Dict) :
  Dict * Dict :=
  match dict_get params parameter_name with
  | Some v => ([(parameter_name, v)], dict_remove params parameter_name)
  | None => ([], params)
  end.

Definition SimpleListFilter_value (parameter_name : string)
  (used_parameters : Dict) : option string :=
  dict_get used_parameters parameter_name.

End Django.

Export Django.

(** ** filtrate/filters.py *)

Module Filtrate.

Local Open Scope string_scope.

(** *** Objects handed to the tree filter

    A Python object, by what [_tree_to_json] can observe of it: whether its
    type is exactly [tuple] (or a subclass of it, or something else), what
    [force_str] returns for it (or raises), its [pk] attribute if it has one,
    and the objects it yields when it is indexed or iterated, if it can be.
    A [pk] is an integer key here; an object whose [pk] is [None] or of
    another type is outside this model, and no statement below speaks of
    one. *)

Inductive PyType : Type :=
| TyTuple
| TyTupleSubclass
| TyOther.

Inductive PyObj : Type :=
| PyObject (ob_type : PyType) (ob_str : Result string) (ob_pk : option Z)
    (ob_items : option (list PyObj)).

Definition PyObj_ind' (P : PyObj -> Prop)
  (Hnone : forall ty s pk, P (PyObject ty s pk None))
  (Hsome : forall ty s pk items, Forall P items -> P (PyObject ty s pk (Some items))) :
  forall o, P o :=
  fix go (o : PyObj) : P o :=
    match o with
    | PyObject ty s pk None => Hnone ty s pk
    | PyObject ty s pk (Some items) =>
        Hsome ty s pk items
          ((fix all (l : list PyObj) : Forall P l :=
              match l with
              | [] => Forall_nil P
              | x :: xs => Forall_cons x (go x) (all xs)
              end) items)
    end.

Definition ob_type (o : PyObj) : PyType :=
  match o with PyObject ty _ _ _ => ty end.

Definition ob_pk (o : PyObj) : option Z :=
  match o with PyObject _ _ pk _ => pk end.

Definition ob_items (o : PyObj) : option (list PyObj) :=
  match o with PyObject _ _ _ items => items end.

Definition force_str (o : PyObj) : Result string :=
  match o with PyObject _ s _ _ => s end.

(** [type(node) == type(tuple())]. *)
Definition is_tuple (o : PyObj) : bool :=
  match ob_type o with
  | TyTuple => true
  | _ => false
  end.

(** *** Class attributes *)

(** What a filter class fixes: [title], [parameter_name] (a concrete filter
    sets it; Django refuses a list filter without one), and the [Media] class
    that [getattr(self, 'Media', None)] finds. *)
Record FilterClass : Type := {
  title : string;
  parameter_name : string;
  Media_attr : option MediaDecl
}.

(** [FiltrateFilter.Media]. *)
Definition FiltrateFilter_Media : MediaDecl :=
  {| css := [("all", ["filtrate/css/filtrate.css"])];
     js := ["filtrate/js/filtrate.js"] |}.

(** [DateRangeFilter.Media]; [include_jquery] is
    [settings.FILTRATE['include_jquery']]. *)
Definition DateRangeFilter_Media (include_jquery : bool) : MediaDecl :=
  let js0 := ["filtrate/js/daterangefilter.js"] in
  if include_jquery then
    {| css := [("all",
         ["//ajax.googleapis.com/ajax/libs/jqueryui/1.8.14/themes/flick/jquery-ui.css"])];
       js := ["//ajax.googleapis.com/ajax/libs/jqueryui/1.8.14/jquery-ui.min.js";
              "//ajax.googleapis.com/ajax/libs/jqueryui/1.8.14/i18n/jquery-ui-i18n.min.js"]
             ++ js0 |}
  else {| css := []; js := js0 |}.

(** [TreeFilter.Media]. *)
Definition TreeFilter_Media : MediaDecl :=
  {| css := []; js := ["filtrate/js/filtertree.js"] |}.

(** *** FiltrateFilter *)

Record FiltrateFilter : Type := {
  klass : FilterClass;
  request : HttpRequest;
  params : Dict;
  used_parameters : Dict
}.

Section WithMedia.

Context {ML : MediaLib}.

Definition _get_media (decl : option MediaDecl) : Media := Media_new decl.

(** [setattr(model_admin.Media, name, getattr(media, "_" + name))]. *)
Definition setattr_Media (model_admin : ModelAdmin) (name : MediaType)
  (media : Media) : Result unit * ModelAdmin :=
  match admin_Media model_admin with
  | None => (Raise AttributeError, model_admin)
  | Some decl =>
      (Ok tt,
       {| admin_Media := Some
            match name with
            | MT_css => {| css := Media_css media; js := js decl |}
            | MT_js => {| css := css decl; js := Media_js media |}
            end |})
  end.

Fixpoint setattr_each (names : list MediaType) (media : Media)
  (model_admin : ModelAdmin) : Result unit * ModelAdmin :=
  match names with
  | [] => (Ok tt, model_admin)
  | name :: names' =>
      match setattr_Media model_admin name media with
      | (Ok _, model_admin') => setattr_each names' media model_admin'
      | (Raise e, model_admin') => (Raise e, model_admin')
      end
  end.

Definition _add_media (self_Media : option MediaDecl) (model_admin : ModelAdmin) :
  Result unit * ModelAdmin :=
  let media :=
    Media_add
      (Media_add (_get_media (admin_Media model_admin))
                 (_get_media (Some FiltrateFilter_Media)))
      (_get_media self_Media) in
  setattr_each MEDIA_TYPES media model_admin.

(** [FiltrateFilter.__init__]: the result, and the model admin as the call
    leaves it ([_add_media] runs first, then the attributes are set and
    [SimpleListFilter.__init__] is called).  [self.params] is the dict the
    caller passed, so it shows what [SimpleListFilter.__init__] took out of
    it.  The [model] argument is only stored and is left out. *)
Definition FiltrateFilter_init (cls : FilterClass) (request : HttpRequest)
  (params : Dict) (model_admin : ModelAdmin) : Result FiltrateFilter * ModelAdmin :=
  match _add_media (Media_attr cls) model_admin with
  | (Raise e, model_admin') => (Raise e, model_admin')
  | (Ok _, model_admin') =>
      let '(used, params') := SimpleListFilter_init (parameter_name cls) params in
      (Ok {| klass := cls; request := request; params := params';
             used_parameters := used |},
       model_admin')
  end.

End WithMedia.

Definition value (self : FiltrateFilter) : option string :=
  SimpleListFilter_value (parameter_name (klass self)) (used_parameters self).

Definition quote : string := String dquote EmptyString.

(** ['<input type="hidden" name="%s" value="%s"/>' % (k, v)]. *)
Definition hidden_input (k v : string) : string :=
  "<input type=" ++ quote ++ "hidden" ++ quote ++ " name=" ++ quote ++ k ++ quote
  ++ " value=" ++ quote ++ v ++ quote ++ "/>".

Definition _form_duplicate_getparams (self : FiltrateFilter)
  (omitted_fields : list string) : Result string :=
  let _omitted_fields := (omitted_fields ++ ["e"])%list in
  let _keys := dict_keys (GET (request self)) in
  parts <-
    mapM (fun k => v <- dict_getitem (GET (request self)) k ;; Ok (hidden_input k v))
         (filter (fun k => negb (existsb (String.eqb k) _omitted_fields)) _keys) ;;
  Ok (join "" parts).

Definition lookups : list (string * string) := [("_", "_")].

Definition get_title (self : FiltrateFilter) : string := title (klass self).

Definition FiltrateFilter_get_content : Result string := Raise NotImplementedError.

Definition FiltrateFilter_queryset (self : FiltrateFilter) (queryset : QuerySet) :
  QuerySet :=
  match value self with
  | None => queryset
  | Some v => QFilter queryset [(parameter_name (klass self), AStr v)]
  end.

(** *** DateRangeFilter *)

Inductive Widget : Type :=
| Input (class : string)
| HiddenInput (class : string).

(** A [CharField]. *)
Record CharField : Type := {
  label : option string;
  widget : Widget;
  required : bool
}.

Record Form : Type := {
  fields : list (string * CharField);
  data : Dict
}.

Definition add_fields (fields : list (string * CharField)) (name label : string) :
  list (string * CharField) :=
  (fields
   ++ [((name ++ "__alt")%string,
        {| label := Some label; widget := Input "filtrate_date"; required := false |})]
   ++ [(name,
        {| label := None; widget := HiddenInput "filtrate_date_hidden";
           required := false |})])%list.

Definition add_data (data : Dict) (name : string) (request : HttpRequest) : Dict :=
  match dict_get (GET request) name with
  | Some date => if date =? "" then data else dict_set data (name ++ "__alt") date
  | None => data
  end.

Definition _get_form (self : FiltrateFilter) : Form :=
  let from_name := parameter_name (klass self) ++ "__gte" in
  let to_name := parameter_name (klass self) ++ "__lte" in
  let data := add_data (add_data [] from_name (request self)) to_name (request self) in
  {| fields := add_fields (add_fields [] from_name "From") to_name "To";
     data := data |}.

(** [_get_form] takes a [field_name] that it does not use; it is left out.

    [DateRangeFilter] does not define [queryset]: it is the base filter's. *)
Definition DateRangeFilter_queryset (self : FiltrateFilter) (queryset : QuerySet) :
  QuerySet :=
  FiltrateFilter_queryset self queryset.

(** *** TreeFilter *)

Definition INCLUDE : Z := 1.
Definition EXCLUDE : Z := 2.

Record TreeClass : Type := {
  tree_base : FilterClass;
  query_mode : Z;
  query_name : option string
}.

Record TreeFilter : Type := {
  tree_class : TreeClass;
  super : FiltrateFilter;
  selected_nodes : list Z
}.

Definition TreeFilter_init {ML : MediaLib} (cls : TreeClass) (request : HttpRequest)
  (params : Dict) (model_admin : ModelAdmin) : Result TreeFilter * ModelAdmin :=
  match FiltrateFilter_init (tree_base cls) request params model_admin with
  | (Raise e, model_admin') => (Raise e, model_admin')
  | (Ok self, model_admin') =>
      match value self with
      | Some v =>
          match mapM int (split "," v) with
          | Ok ids =>
              (Ok {| tree_class := cls; super := self; selected_nodes := ids |},
               model_admin')
          | Raise e => (Raise e, model_admin')
          end
      | None =>
          (Ok {| tree_class := cls; super := self; selected_nodes := [] |},
           model_admin')
      end
  end.

(** [for node in tree]. *)
Definition iterate (tree : PyObj) : Result (list PyObj) :=
  match ob_items tree with
  | Some nodes => Ok nodes
  | None => Raise TypeError
  end.

(** [node[i]]. *)
Definition getitem (node : PyObj) (i : nat) : Result PyObj :=
  match ob_items node with
  | Some items =>
      match nth_error items i with
      | Some x => Ok x
      | None => Raise IndexError
      end
  | None => Raise TypeError
  end.

(** The dict a leaf is serialized to. *)
Definition leaf_dict (pk : Z) (is_selected : bool) (title : string) : json :=
  JDict [("attr", JDict [("obj_id", JInt pk); ("is_selected", JBool is_selected)]);
         ("data", JStr title)].

(** The dict a parent is serialized to. *)
Definition parent_dict (title : string) (new_tree : list json) : json :=
  JDict [("data", JStr title); ("children", JList new_tree)].

(** One turn of the loop of [parse_tree]: what is appended to [cur_tree] for
    [node].  The type test, [node[0]], [node[1]] and the iteration over the
    children are written as pattern matching, so that the recursion is on the
    structure of [node]; [parse_node_eq] below gives the same function in the
    words of the loop body ([is_tuple], [getitem], [parse_tree]).  The
    exceptions come in the order Python raises them: [node[0]] before
    [force_str], [force_str] before [node[1]], [node[1]] before the
    iteration. *)
Fixpoint parse_node (selected_nodes : list Z) (node : PyObj) {struct node} :
  Result json :=
  match node with
  | PyObject TyTuple _ _ items =>
      match items with
      | None => Raise TypeError
      | Some [] => Raise IndexError
      | Some (node0 :: rest) =>
          title <- force_str node0 ;;
          match rest with
          | [] => Raise IndexError
          | PyObject _ _ _ None :: _ => Raise TypeError
          | PyObject _ _ _ (Some children) :: _ =>
              new_tree <- mapM (parse_node selected_nodes) children ;;
              Ok (parent_dict title new_tree)
          end
      end
  | PyObject _ s pk _ =>
      title <- s ;;
      match pk with
      | None => Raise AttributeError
      | Some id => Ok (leaf_dict id (contains id selected_nodes) title)
      end
  end.

(** [parse_tree(tree, cur_tree)] on an empty [cur_tree]: the list it leaves
    in it. *)
Definition parse_tree (selected_nodes : list Z) (tree : PyObj) : Result (list json) :=
  nodes <- iterate tree ;;
  mapM (parse_node selected_nodes) nodes.

Definition _tree_to_json (self : TreeFilter) (tree : PyObj) : Result string :=
  json_tree <- parse_tree (selected_nodes self) tree ;;
  Ok (dumps (JList json_tree)).

Definition get_tree : Result PyObj := Raise NotImplementedError.

Definition TreeFilter_queryset (self : TreeFilter) (queryset : QuerySet) :
  Result QuerySet :=
  match selected_nodes self with
  | [] => Ok queryset
  | _ :: _ =>
      let name :=
        match query_name (tree_class self) with
        | None => parameter_name (klass (super self))
        | Some n => n
        end in
      let kwargs := [(name, AInts (selected_nodes self))] in
      if (query_mode (tree_class self) =? INCLUDE)%Z then Ok (QFilter queryset kwargs)
      else if (query_mode (tree_class self) =? EXCLUDE)%Z then Ok (QExclude queryset kwargs)
      else Raise (Exception_ "Unknown query_mode given.")
  end.

End Filtrate.

Export Filtrate.

(** ** Trees and their serialized form

    The trees [get_tree] is meant to return, and what a client finds in the
    JSON text: the vocabulary the statements about [_tree_to_json] are
    written in. *)

Module TreeView.

Local Open Scope string_scope.

(** A tree node: a record with its primary key and title, or a label with
    the nodes below it. *)
Inductive Tree : Type :=
| Leaf (pk : Z) (title : string)
| Node (label : string) (children : list Tree).

Definition Tree_ind' (P : Tree -> Prop)
  (Hleaf : forall pk title, P (Leaf pk title))
  (Hnode : forall label ts, Forall P ts -> P (Node label ts)) :
  forall t, P t :=
  fix go (t : Tree) : P t :=
    match t with
    | Leaf pk title => Hleaf pk title
    | Node label ts =>
        Hnode label ts
          ((fix all (ts : list Tree) : Forall P ts :=
              match ts with
              | [] => Forall_nil P
              | x :: xs => Forall_cons x (go x) (all xs)
              end) ts)
    end.

(** [represents o t]: the Python object [o] is the node [t].  A leaf is any
    object whose type is not exactly [tuple], with a [pk] and a string form;
    a parent is a tuple whose first element has the label as its string form
    and whose second element yields the children (further elements may
    follow). *)
Inductive represents : PyObj -> Tree -> Prop :=
| represents_leaf (ty : PyType) (pk : Z) (title : string)
    (items : option (list PyObj)) :
    ty <> TyTuple ->
    represents (PyObject ty (Ok title) (Some pk) items) (Leaf pk title)
| represents_node (s : Result string) (pk : option Z)
    (label_obj children_obj : PyObj) (extra nodes : list PyObj)
    (label : string) (ts : list Tree) :
    force_str label_obj = Ok label ->
    ob_items children_obj = Some nodes ->
    Forall2 represents nodes ts ->
    represents (PyObject TyTuple s pk (Some (label_obj :: children_obj :: extra)))
               (Node label ts).

(** [visits root n]: the loop of [parse_tree] started on [root] reaches the
    node [n]. *)
Inductive visits : PyObj -> PyObj -> Prop :=
| visits_self (n : PyObj) : visits n n
| visits_child (s : Result string) (pk : option Z)
    (label_obj children_obj : PyObj) (extra nodes : list PyObj) (c n : PyObj) :
    ob_items children_obj = Some nodes ->
    In c nodes ->
    visits c n ->
    visits (PyObject TyTuple s pk (Some (label_obj :: children_obj :: extra))) n.

(** The JSON value of a tree node under a selection. *)
Fixpoint tree_json (selected : list Z) (t : Tree) : json :=
  match t with
  | Leaf pk title => leaf_dict pk (contains pk selected) title
  | Node label ts => parent_dict label (map (tree_json selected) ts)
  end.

(** A node as the client's tree widget reads it. *)
Inductive JsNode : Type :=
| JsLeaf (obj_id : Z) (is_selected : bool) (data : string)
| JsParent (data : string) (children : list JsNode).

Definition decode_list (dec : json -> option JsNode) :
  list json -> option (list JsNode) :=
  fix all (l : list json) : option (list JsNode) :=
    match l with
    | [] => Some []
    | x :: xs =>
        match dec x, all xs with
        | Some n, Some ns => Some (n :: ns)
        | _, _ => None
        end
    end.

Fixpoint decode (j : json) : option JsNode :=
  match j with
  | JDict [(k1, JStr label); (k2, JList cs)] =>
      if (k1 =? "data") && (k2 =? "children") then
        match decode_list decode cs with
        | Some ns => Some (JsParent label ns)
        | None => None
        end
      else None
  | JDict [(k1, JDict [(a1, JInt pk); (a2, JBool sel)]); (k2, JStr title)] =>
      if (k1 =? "attr") && (a1 =? "obj_id") && (a2 =? "is_selected") && (k2 =? "data")
      then Some (JsLeaf pk sel title)
      else None
  | _ => None
  end.

Definition decode_all : list json -> option (list JsNode) := decode_list decode.

(** The nodes the client reads from the text [s]. *)
Definition read_tree (s : string) : option (list JsNode) :=
  match loads s with
  | Some (JList l) => decode_all l
  | _ => None
  end.


(** A tree node with the selection flags the serialization gives it. *)
Fixpoint mark (selected : list Z) (t : Tree) : JsNode :=
  match t with
  | Leaf pk title => JsLeaf pk (contains pk selected) title
  | Node label ts => JsParent label (map (mark selected) ts)
  end.

(** The leaves below a node, depth first and left to right. *)
Fixpoint tree_leaves (t : Tree) : list Z :=
  match t with
  | Leaf pk _ => [pk]
  | Node _ ts => flat_map tree_leaves ts
  end.

Fixpoint js_leaves (n : JsNode) : list (Z * bool) :=
  match n with
  | JsLeaf pk sel _ => [(pk, sel)]
  | JsParent _ ns => flat_map js_leaves ns
  end.



End TreeView.

Export TreeView.

(** ** Vocabulary of the statements *)

(** No character of [s] is the separator. *)
Definition no_sep (sep : ascii) (s : string) : Prop :=
  Forall (fun c => Ascii.eqb c sep = false) (list_ascii_of_string s).

(** Some call recorded in the query set carries the keyword [key]. *)
Fixpoint has_keyword (key : string) (q : QuerySet) : bool :=
  match q with
  | QAll => false
  | QFilter q' kwargs | QExclude q' kwargs =>
      existsb (fun kv => String.eqb (fst kv) key) kwargs || has_keyword key q'
  end.

(** The media the constructor aggregates: the model admin's, then the base
    filter class's, then the instance's. *)
Definition merged_media {ML : MediaLib} (decl : MediaDecl)
  (self_Media : option MediaDecl) : Media :=
  Media_add
    (Media_add (Media_new (Some decl)) (Media_new (Some FiltrateFilter_Media)))
    (Media_new self_Media).

(** The [Media] class of the model admin once a filter has been constructed
    on it. *)
Definition merged_decl {ML : MediaLib} (decl : MediaDecl)
  (self_Media : option MediaDecl) : MediaDecl :=
  {| css := Media_css (merged_media decl self_Media);
     js := Media_js (merged_media decl self_Media) |}.

(** ** Example inputs *)

Definition example_admin : ModelAdmin :=
  {| admin_Media := Some {| css := []; js := ["admin/js/custom.js"%string] |} |}.

Definition example_tree_class (mode : Z) : TreeClass :=
  {| tree_base := {| title := "Department"; parameter_name := "dept_id";
                     Media_attr := Some TreeFilter_Media |};
     query_mode := mode;
     query_name := None |}.

Definition example_tree_filter (mode : Z) (selected : list Z) : TreeFilter :=
  {| tree_class := example_tree_class mode;
     super := {| klass := tree_base (example_tree_class mode);
                 request := {| GET := [] |}; params := []; used_parameters := [] |};
     selected_nodes := selected |}.

(** The same filter class with the query name set to a membership lookup. *)
Definition example_in_class (mode : Z) : TreeClass :=
  {| tree_base := tree_base (example_tree_class mode);
     query_mode := mode;
     query_name := Some "dept_id__in"%string |}.

Definition example_in_filter (mode : Z) (selected : list Z) : TreeFilter :=
  {| tree_class := example_in_class mode;
     super := super (example_tree_filter mode selected);
     selected_nodes := selected |}.

(** [s.endswith(suffix)]. *)
Definition ends_with (suffix s : string) : bool :=
  (String.length suffix <=? String.length s)%nat
  && String.eqb (substring (String.length s - String.length suffix)
                           (String.length suffix) s) suffix.

(** A record store of integer rows that reads a keyword argument by its
    name, as Django's lookups do: a list of integers under a name that ends
    in [__in] is a membership test; under any other name the comparison is
    with the list itself, which no integer row meets (Django refuses that
    query).  A string value matches no row here. *)
Definition django_reading (name : string) (arg : Arg) (r : Z) : bool :=
  match arg with
  | AInts ids => ends_with "__in" name && contains r ids
  | AStr _ => false
  end.

(** The text of [n] zeros. *)
Fixpoint zeros (n : nat) : string :=
  match n with
  | O => EmptyString
  | S n' => String "0" (zeros n')
  end.

(** The decimal text of [10 ** 4300]: a numeral of 4301 digits. *)
Definition example_long_numeral : string := String "1" (zeros 4300).


Definition example_date_class : FilterClass :=
  {| title := "Created"; parameter_name := "created";
     Media_attr := Some (DateRangeFilter_Media false) |}%string.

Definition example_from_only : Dict := [("created__gte", "2020-01-01")]%string.

Definition example_from_to : Dict :=
  [("created__gte", "2020-01-01"); ("created__lte", "2020-12-31")]%string.

(** A model instance, a label, and tuples of them. *)
Definition py_instance (pk : Z) (title : string) : PyObj :=
  PyObject TyOther (Ok title) (Some pk) None.

(** A label.  Only its type, its string form and its lack of a [pk] are
    kept: a Python [str] can also be indexed and iterated, which nothing
    here does with a label. *)
Definition py_str (s : string) : PyObj := PyObject TyOther (Ok s) None None.

Definition py_tuple (items : list PyObj) : PyObj :=
  PyObject TyTuple (Ok "(...)"%string) None (Some items).

(** An instance of a named tuple class that carries a [pk]. *)
Definition py_namedtuple (pk : Z) (title : string) (items : list PyObj) : PyObj :=
  PyObject TyTupleSubclass (Ok title) (Some pk) (Some items).

Definition example_tree : PyObj :=
  py_tuple
    [py_instance 5 "Sales";
     py_tuple [py_str "Research";
               py_tuple [py_instance 3 "Lab"; py_instance 8 "Library"];
               py_str "ignored"]]%string.


(** The text [_tree_to_json] returns for [example_tree] when 5 and 8 are
    selected. *)
Definition example_text : string :=
  match _tree_to_json (example_tree_filter INCLUDE [5; 8]%Z) example_tree with
  | Ok s => s
  | Raise _ => EmptyString
  end.

(** A tree with a string where a record is expected. *)
Definition example_bad_tree : PyObj :=
  py_tuple
    [py_instance 5 "Sales";
     py_tuple [py_str "Research"; py_tuple [py_instance 3 "Lab"; py_str "Library"]]]%string.

(** ** filtrate/filters.py: rendering *)

Module Rendering.

Local Open Scope string_scope.

(** [mark_safe] marks a string as not needing escaping; the text is the
    same. *)
Definition mark_safe (s : string) : string := s.

Definition nl : string := String "010"%char EmptyString.

Fixpoint spaces (n : nat) : string :=
  match n with
  | O => EmptyString
  | S n' => String " "%char (spaces n')
  end.

(** [name="value"], as written in the templates. *)
Definition attr (name v : string) : string := name ++ "=" ++ quote ++ v ++ quote.

(** The template of [TreeFilter.get_content], with its three [%s] filled
    in. *)
Definition tree_template (tree_json parameter_name get_params : string) : string :=
  nl
  ++ spaces 12 ++ "<div " ++ attr "class" "treefilter" ++ ">" ++ nl
  ++ spaces 16 ++ "<textarea " ++ attr "style" "display: none;" ++ ">"
       ++ tree_json ++ "</textarea>" ++ nl
  ++ spaces 16 ++ "<form " ++ attr "action_method" "get" ++ ">" ++ nl
  ++ spaces 20 ++ "<div " ++ attr "class" "tree" ++ "></div>" ++ nl
  ++ spaces 20 ++ "<input " ++ attr "class" "checked" ++ " " ++ attr "type" "hidden"
       ++ " " ++ attr "name" parameter_name ++ " " ++ attr "value" "" ++ "/>" ++ nl
  ++ spaces 20 ++ "<input " ++ attr "type" "submit" ++ " " ++ attr "value" "Send"
       ++ " />" ++ nl
  ++ spaces 20 ++ get_params ++ nl
  ++ spaces 16 ++ "</form>" ++ nl
  ++ spaces 12 ++ "</div>" ++ nl
  ++ spaces 8.

(** [TreeFilter.get_content]; [get_tree] is what the class's [get_tree()]
    returns or raises.  The arguments of [%] are evaluated from left to
    right: the tree and its serialization first, the echoed parameters
    last. *)
Definition TreeFilter_get_content (self : TreeFilter) (get_tree : Result PyObj) :
  Result string :=
  tree <- get_tree ;;
  tree_json <- _tree_to_json self tree ;;
  get_params <-
    _form_duplicate_getparams (super self) [parameter_name (klass (super self))] ;;
  Ok (mark_safe (tree_template tree_json (parameter_name (klass (super self)))
                   get_params)).

(** The template of [DateRangeFilter.get_content], with its five named
    places filled in. *)
Definition daterange_template
  (datepicker_region datepicker_date_format form submit get_params : string) : string :=
  nl
  ++ spaces 12 ++ "<script>" ++ nl
  ++ spaces 16 ++ "var filtrate = filtrate || {};" ++ nl
  ++ spaces 16 ++ "filtrate.datepicker_region = '" ++ datepicker_region ++ "';" ++ nl
  ++ spaces 16 ++ "filtrate.datepicker_date_format = '" ++ datepicker_date_format
       ++ "';" ++ nl
  ++ spaces 12 ++ "</script>" ++ nl
  ++ spaces 12 ++ "<form " ++ attr "class" "filtrate_daterange_form" ++ " "
       ++ attr "method" "get" ++ ">" ++ nl
  ++ spaces 16 ++ form ++ nl
  ++ spaces 12 ++ "<input " ++ attr "type" "submit" ++ " " ++ attr "value" submit
       ++ " />" ++ nl
  ++ spaces 12 ++ get_params ++ nl
  ++ spaces 12 ++ "</form>" ++ nl
  ++ spaces 8.

(** [DateRangeFilter.get_content].  What Django and the settings module
    supply is taken as given: [as_p] renders a form, [gettext] translates,
    [datepicker_region] and [datepicker_date_format] are the two entries of
    [settings.FILTRATE]. *)
Definition DateRangeFilter_get_content (as_p : Form -> string)
  (gettext : string -> string) (datepicker_region datepicker_date_format : string)
  (self : FiltrateFilter) : Result string :=
  let form := _get_form self in
  get_params <- _form_duplicate_getparams self (map fst (fields form)) ;;
  Ok (mark_safe (daterange_template datepicker_region datepicker_date_format
                   (as_p form) (gettext "Apply filter") get_params)).

(** A call [self.get_title(...)] of [FiltrateFilter.get_title(self, request)]
    with the positional arguments [args]: anything but exactly one argument
    is a [TypeError]. *)
Definition get_title_call (self : FiltrateFilter) (args : list HttpRequest) :
  Result string :=
  match args with
  | [_] => Ok (get_title self)
  | _ => Raise TypeError
  end.

(** The one choice that [choices] returns. *)
Record Choice : Type := { choice_title : string; choice_content : string }.

(** [FiltrateFilter.choices]; [get_content] is the class's [get_content].
    The dict display evaluates [self.get_title()] before
    [self.get_content(self.request)]. *)
Definition choices (self : FiltrateFilter)
  (get_content : HttpRequest -> Result string) : Result (list Choice) :=
  t <- get_title_call self [] ;;
  c <- get_content (request self) ;;
  Ok [{| choice_title := t; choice_content := c |}].

End Rendering.

Export Rendering.

(** ** More vocabulary *)

(** What [_form_duplicate_getparams] echoes: the keys of the query
    parameters that are not omitted, each with its value. *)
Definition echoed (G : Dict) (omitted_fields : list string) : list (string * string) :=
  map (fun k => (k, match dict_get G k with Some v => v | None => EmptyString end))
      (filter (fun k => negb (existsb (String.eqb k) (omitted_fields ++ ["e"%string])))
              (dict_keys G)).





(** * Properties *)

(** ** Decimal numerals *)

Local Open Scope list_scope.

Lemma digit_val_digit_char (d : N) :
  (d < 10)%N -> digit_val (digit_char d) = Some d.
Proof.
  intros H.
  assert (E : d = 0%N \/ d = 1%N \/ d = 2%N \/ d = 3%N \/ d = 4%N \/ d = 5%N
              \/ d = 6%N \/ d = 7%N \/ d = 8%N \/ d = 9%N) by lia.
  repeat (destruct E as [E | E]; [subst d; reflexivity |]).
  subst d; reflexivity.
Qed.

Lemma digit_val_facts (c : ascii) (d : N) :
  digit_val c = Some d ->
  (d < 10)%N /\ int_space c = false /\ Ascii.eqb c "-" = false
  /\ Ascii.eqb c "+" = false /\ Ascii.eqb c "," = false
  /\ Ascii.eqb c "_" = false /\ is_ws c = false /\ Ascii.eqb c "]" = false.
Proof.
  ascii_cases c; cbv; intros H; try discriminate H;
    injection H as <-; repeat split; reflexivity.
Qed.

Lemma digits_acc_chain (fuel : nat) :
  forall (n : N) (k : list ascii),
    (n < 2 ^ N.of_nat fuel)%N ->
    exists m : N, forall a : N,
      read_digits a (digits_acc fuel n k) = read_digits (a * m + n) k.
Proof.
  induction fuel as [|fuel IH]; intros n k Hn.
  - exists 1%N. intros a. simpl. change (2 ^ N.of_nat 0)%N with 1%N in Hn. replace n with 0%N by lia.
    f_equal. lia.
  - cbn [digits_acc]. destruct (N.ltb_spec n 10) as [Hlt | Hge].
    + exists 10%N. intros a. cbn [read_digits].
      rewrite N.mod_small by lia.
      rewrite digit_val_digit_char by lia. f_equal. lia.
    + assert (Hdiv : (n / 10 < 2 ^ N.of_nat fuel)%N).
      { rewrite Nnat.Nat2N.inj_succ, N.pow_succ_r' in Hn.
        apply N.Div0.div_lt_upper_bound. lia. }
      destruct (IH (n / 10)%N (digit_char (n mod 10) :: k) Hdiv) as [m Hm].
      exists (10 * m)%N. intros a. rewrite Hm. cbn [read_digits].
      rewrite digit_val_digit_char by (apply N.mod_lt; lia).
      f_equal. pose proof (N.div_mod n 10). lia.
Qed.

Lemma digits_fuel_enough (n : N) : (n < 2 ^ N.of_nat (digits_fuel n))%N.
Proof.
  unfold digits_fuel. rewrite Nnat.Nat2N.inj_succ, Nnat.N2Nat.id.
  destruct n as [|p]; [reflexivity |].
  apply N.log2_spec. reflexivity.
Qed.

Lemma read_digits_stop (a : N) (k : list ascii) :
  no_digit_head k -> read_digits a k = (a, k).
Proof.
  destruct k as [|c r]; simpl; [reflexivity |]. intros ->. reflexivity.
Qed.

Lemma read_digits_print_N (n : N) (k : list ascii) :
  no_digit_head k -> read_digits 0 (print_N n k) = (n, k).
Proof.
  intros Hk. unfold print_N.
  destruct (digits_acc_chain (digits_fuel n) n k (digits_fuel_enough n)) as [m Hm].
  rewrite Hm. simpl. apply read_digits_stop. exact Hk.
Qed.

Lemma digits_acc_head (fuel : nat) :
  forall (n : N) (k : list ascii),
    (n < 2 ^ N.of_nat (S fuel))%N ->
    exists (d : N) (r : list ascii),
      digits_acc (S fuel) n k = digit_char d :: r
      /\ (d < 10)%N /\ (n = 0%N <-> d = 0%N).
Proof.
  induction fuel as [|fuel IH]; intros n k Hn.
  - simpl. destruct (N.ltb_spec n 10) as [Hlt | Hge].
    + exists n, k. rewrite N.mod_small by lia. repeat split; auto.
    + change (2 ^ N.of_nat 1)%N with 2%N in Hn. lia.
  - cbn [digits_acc]. destruct (N.ltb_spec n 10) as [Hlt | Hge].
    + exists n, k. rewrite N.mod_small by lia. repeat split; auto.
    + assert (Hdiv : (n / 10 < 2 ^ N.of_nat (S fuel))%N).
      { rewrite (Nnat.Nat2N.inj_succ (S fuel)), N.pow_succ_r' in Hn.
        apply N.Div0.div_lt_upper_bound. lia. }
      destruct (IH (n / 10)%N (digit_char (n mod 10) :: k) Hdiv)
        as (d & r & E & Hd & Hz).
      exists d, r. cbn [digits_acc] in E. rewrite E. repeat split; auto.
      * intros ->. lia.
      * intros Hd0. apply Hz in Hd0.
        assert (1 <= n / 10)%N by (apply N.div_le_lower_bound; lia). lia.
Qed.

Lemma print_N_head (n : N) (k : list ascii) :
  exists (d : N) (r : list ascii),
    print_N n k = digit_char d :: r /\ (d < 10)%N /\ (n = 0%N <-> d = 0%N).
Proof.
  unfold print_N, digits_fuel. apply digits_acc_head.
  apply (digits_fuel_enough n).
Qed.

Lemma digits_acc_all_digits (fuel : nat) :
  forall (n : N) (k : list ascii),
    Forall (fun c => is_digit c = true) k ->
    Forall (fun c => is_digit c = true) (digits_acc fuel n k).
Proof.
  induction fuel as [|fuel IH]; intros n k Hk; simpl; [exact Hk |].
  assert (Hd : is_digit (digit_char (n mod 10)) = true).
  { unfold is_digit. rewrite digit_val_digit_char; [reflexivity |].
    apply N.mod_lt. lia. }
  destruct (n <? 10)%N; [| apply IH]; constructor; assumption.
Qed.

Lemma digits_acc_length (fuel : nat) :
  forall (n : N) (k : list ascii),
    List.length k <= List.length (digits_acc fuel n k).
Proof.
  induction fuel as [|fuel IH]; intros n k; simpl; [lia |].
  destruct (n <? 10)%N; simpl; [lia |].
  specialize (IH (n / 10)%N (digit_char (n mod 10) :: k)). simpl in IH. lia.
Qed.

Lemma print_int_length (z : Z) (k : list ascii) :
  List.length k < List.length (print_int z k).
Proof.
  assert (H : forall n, List.length k < List.length (print_N n k)).
  { intros n. unfold print_N, digits_fuel. cbn [digits_acc].
    destruct (n <? 10)%N; simpl; [lia |].
    pose proof (digits_acc_length (N.to_nat (N.log2 n)) (n / 10)%N
                  (digit_char (n mod 10) :: k)) as L.
    simpl in L. lia. }
  destruct z as [|p|p]; cbn [print_int]; try apply H.
  specialize (H (Npos p)). cbn [List.length]. lia.
Qed.

(** ** json: reading back what dumps wrote *)

Lemma parse_chars_escape (c : ascii) (tail : list ascii) :
  parse_chars (escape_char c ++ tail) = cons_char c (parse_chars tail).
Proof.
  ascii_cases c; reflexivity.
Qed.

Lemma parse_chars_print (s : string) (k : list ascii) :
  parse_chars (print_chars s (dquote :: k)) = Some (s, k).
Proof.
  induction s as [|c s IH]; cbn [print_chars].
  - reflexivity.
  - rewrite parse_chars_escape, IH. reflexivity.
Qed.

Lemma parse_nat_print (n : N) (k : list ascii) :
  no_digit_head k -> parse_nat (print_N n k) = Some (n, k).
Proof.
  intros Hk. destruct n as [|p]; [reflexivity |].
  pose proof (read_digits_print_N (Npos p) k Hk) as R.
  destruct (print_N_head (Npos p) k) as (d & r & E & Hd & Hz).
  rewrite E in *. unfold parse_nat. cbn [read_digits] in R.
  rewrite digit_val_digit_char in * by exact Hd.
  destruct d as [|q].
  - destruct Hz as [_ Hz]. discriminate (Hz eq_refl).
  - rewrite <- R. reflexivity.
Qed.

Lemma parse_number_print (z : Z) (k : list ascii) :
  no_digit_head k -> parse_number (print_int z k) = Some (JInt z, k).
Proof.
  intros Hk. destruct z as [|p|p]; cbn [print_int].
  - reflexivity.
  - pose proof (parse_nat_print (Npos p) k Hk) as R.
    destruct (print_N_head (Npos p) k) as (d & r & E & Hd & _).
    rewrite E in *. unfold parse_number.
    destruct (digit_val_facts _ _ (digit_val_digit_char d Hd)) as (_ & _ & -> & _).
    rewrite R. reflexivity.
  - unfold parse_number. change (Ascii.eqb "-" "-") with true. cbv iota.
    rewrite (parse_nat_print (Npos p) k Hk). reflexivity.
Qed.

Lemma print_int_head (z : Z) (k : list ascii) :
  exists (c : ascii) (r : list ascii),
    print_int z k = c :: r /\ (is_digit c = true \/ c = "-"%char).
Proof.
  destruct z as [|p|p]; cbn [print_int].
  - destruct (print_N_head 0 k) as (d & r & E & Hd & _).
    exists (digit_char d), r. split; [exact E | left].
    unfold is_digit. rewrite digit_val_digit_char by exact Hd. reflexivity.
  - destruct (print_N_head (Npos p) k) as (d & r & E & Hd & _).
    exists (digit_char d), r. split; [exact E | left].
    unfold is_digit. rewrite digit_val_digit_char by exact Hd. reflexivity.
  - eexists _, _. split; [reflexivity | right; reflexivity].
Qed.

Lemma parse_value_step_number (pv : list ascii -> option (json * list ascii))
  (c : ascii) (r : list ascii) :
  is_digit c = true \/ c = "-"%char ->
  parse_value_step pv (c :: r) = parse_number (c :: r).
Proof.
  intros [H | ->]; [| reflexivity].
  ascii_cases c; cbv in H; try discriminate H; reflexivity.
Qed.

Lemma parse_value_space (f : nat) (s : list ascii) :
  parse_value f (" "%char :: s) = parse_value f s.
Proof.
  destruct f; reflexivity.
Qed.

Lemma parse_items_space (pv : list ascii -> option (json * list ascii))
  (n : nat) (s : list ascii) :
  pv (" "%char :: s) = pv s ->
  parse_items pv n (" "%char :: s) = parse_items pv n s.
Proof.
  intros H. destruct n; cbn [parse_items]; [reflexivity |].
  rewrite H. reflexivity.
Qed.

Lemma parse_members_space (pv : list ascii -> option (json * list ascii))
  (n : nat) (s : list ascii) :
  parse_members pv n (" "%char :: s) = parse_members pv n s.
Proof.
  destruct n; reflexivity.
Qed.

Lemma print_items_nil pr k first : print_items pr k first [] = "]"%char :: k.
Proof. reflexivity. Qed.

Lemma print_items_cons pr k first x xs :
  print_items pr k first (x :: xs) =
  if first then pr x (print_items pr k false xs)
  else ","%char :: " "%char :: pr x (print_items pr k false xs).
Proof. destruct first; reflexivity. Qed.

Lemma print_members_nil pr k first : print_members pr k first [] = "}"%char :: k.
Proof. reflexivity. Qed.

Lemma print_members_cons pr k first key v ms :
  print_members pr k first ((key, v) :: ms) =
  let rest :=
    print_string key (":"%char :: " "%char :: pr v (print_members pr k false ms)) in
  if first then rest else ","%char :: " "%char :: rest.
Proof. destruct first; reflexivity. Qed.

Lemma print_json_list l k :
  print_json (JList l) k = "["%char :: print_items print_json k true l.
Proof. reflexivity. Qed.

Lemma print_json_dict m k :
  print_json (JDict m) k = "{"%char :: print_members print_json k true m.
Proof. reflexivity. Qed.

Lemma print_json_head (j : json) (k : list ascii) : value_head (print_json j k).
Proof.
  destruct j as [| [|] | z | s | l | m]; try (split; reflexivity).
  cbn [print_json]. destruct (print_int_head z k) as (c & r & -> & [H | ->]).
  - unfold is_digit in H. destruct (digit_val c) as [d|] eqn:E; [| discriminate H].
    destruct (digit_val_facts _ _ E) as (_ & _ & _ & _ & _ & _ & Hws & Hb).
    split; assumption.
  - split; reflexivity.
Qed.

Section Nested.

Variable f : nat.
Variable k : list ascii.

Lemma parse_items_print :
  forall (xs : list json) (x : json) (n : nat),
    Forall (reads_back f) (x :: xs) ->
    List.length xs < n ->
    parse_items (parse_value f) n (print_json x (print_items print_json k false xs))
    = Some (x :: xs, k).
Proof.
  induction xs as [|y ys IH]; intros x n HF Hn;
    (destruct n as [|n]; [lia |]);
    inversion HF as [|? ? Hx HF']; subst; cbn [parse_items].
  - rewrite print_items_nil, Hx by reflexivity. reflexivity.
  - rewrite print_items_cons, Hx by reflexivity.
    cbn [skip_ws]. change (is_ws ",") with false. cbv iota.
    change (Ascii.eqb "," ",") with true. cbv iota.
    rewrite parse_items_space by apply parse_value_space.
    rewrite IH; [reflexivity | exact HF' | simpl in Hn; lia].
Qed.

Lemma parse_members_print :
  forall (ms : list (string * json)) (key : string) (v : json) (n : nat),
    Forall (fun kv => reads_back f (snd kv)) ((key, v) :: ms) ->
    List.length ms < n ->
    parse_members (parse_value f) n
      (print_string key
         (":"%char :: " "%char :: print_json v (print_members print_json k false ms)))
    = Some ((key, v) :: ms, k).
Proof.
  induction ms as [|[key' v'] ms IH]; intros key v n HF Hn;
    (destruct n as [|n]; [lia |]);
    inversion HF as [|? ? Hv HF']; subst; cbn [snd] in Hv;
    unfold print_string; cbn [parse_members skip_ws];
    change (is_ws dquote) with false; cbv iota;
    change (Ascii.eqb dquote dquote) with true; cbv iota;
    rewrite parse_chars_print; cbn [skip_ws];
    change (is_ws ":") with false; cbv iota;
    change (Ascii.eqb ":" ":") with true; cbv iota;
    rewrite parse_value_space.
  - rewrite print_members_nil, Hv by reflexivity. reflexivity.
  - rewrite print_members_cons, Hv by reflexivity.
    cbv zeta. cbn [skip_ws]. change (is_ws ",") with false. cbv iota.
    change (Ascii.eqb "," ",") with true. cbv iota.
    rewrite parse_members_space.
    rewrite IH; [reflexivity | exact HF' | simpl in Hn; lia].
Qed.

End Nested.

Lemma print_chars_length (s : string) (k : list ascii) :
  List.length k <= List.length (print_chars s k).
Proof.
  induction s as [|c s IH]; cbn [print_chars]; [lia |].
  rewrite length_app. lia.
Qed.

Lemma print_json_length (j : json) :
  forall k, depth j + List.length k < List.length (print_json j k).
Proof.
  induction j as [| b | z | s | l IH | m IH] using json_ind'; intros k.
  - simpl. lia.
  - destruct b; simpl; lia.
  - pose proof (print_int_length z k). simpl. lia.
  - cbn [print_json depth]. unfold print_string. cbn [List.length].
    pose proof (print_chars_length s (dquote :: k)) as L. cbn [List.length] in L. lia.
  - rewrite print_json_list. cbn [depth List.length].
    enough (H : forall first,
               fold_right (fun x d => Nat.max (depth x) d) 0 l + List.length k
               < List.length (print_items print_json k first l)) by (specialize (H true); lia).
    induction IH as [|x xs Hx _ IHxs]; intros first.
    + rewrite print_items_nil. simpl. lia.
    + rewrite print_items_cons. cbn [fold_right].
      specialize (Hx (print_items print_json k false xs)).
      specialize (IHxs false).
      destruct first; cbn [List.length]; lia.
  - rewrite print_json_dict. cbn [depth List.length].
    enough (H : forall first,
               fold_right (fun kv d => Nat.max (depth (snd kv)) d) 0 m + List.length k
               < List.length (print_members print_json k first m)) by (specialize (H true); lia).
    induction IH as [|[key v] ms Hv _ IHms]; intros first.
    + rewrite print_members_nil. simpl. lia.
    + rewrite print_members_cons. cbv zeta. cbn [fold_right snd] in *.
      specialize (Hv (print_members print_json k false ms)).
      specialize (IHms false).
      unfold print_string.
      pose proof (print_chars_length key
        (dquote :: ":"%char :: " "%char
           :: print_json v (print_members print_json k false ms))) as L.
      destruct first; cbn [List.length] in *; lia.
Qed.

Lemma print_items_length (l : list json) (k : list ascii) (first : bool) :
  List.length l < List.length (print_items print_json k first l).
Proof.
  revert first. induction l as [|x xs IH]; intros first.
  - rewrite print_items_nil. simpl. lia.
  - rewrite print_items_cons.
    pose proof (print_json_length x (print_items print_json k false xs)).
    specialize (IH false). destruct first; cbn [List.length]; lia.
Qed.

Lemma print_members_length (m : list (string * json)) (k : list ascii) (first : bool) :
  List.length m < List.length (print_members print_json k first m).
Proof.
  revert first. induction m as [|[key v] ms IH]; intros first.
  - rewrite print_members_nil. simpl. lia.
  - rewrite print_members_cons. cbv zeta. unfold print_string.
    pose proof (print_json_length v (print_members print_json k false ms)).
    pose proof (print_chars_length key
      (dquote :: ":"%char :: " "%char
         :: print_json v (print_members print_json k false ms))) as L.
    specialize (IH false). destruct first; cbn [List.length] in *; lia.
Qed.

Lemma fold_max_le {A : Type} (g : A -> nat) (l : list A) (x : A) :
  In x l -> g x <= fold_right (fun y d => Nat.max (g y) d) 0 l.
Proof.
  induction l as [|y ys IH]; intros H; [destruct H |].
  cbn [fold_right]. destruct H as [-> | H]; [lia |]. specialize (IH H). lia.
Qed.

Lemma parse_value_print (j : json) :
  forall (f : nat) (k : list ascii),
    depth j < f -> no_digit_head k ->
    parse_value f (print_json j k) = Some (j, k).
Proof.
  induction j as [| b | z | s | l IH | m IH] using json_ind'; intros f k Hf Hk;
    (destruct f as [|f]; [lia |]); cbn [parse_value].
  - reflexivity.
  - destruct b; reflexivity.
  - cbn [print_json]. destruct (print_int_head z k) as (c & r & E & Hc).
    pose proof (parse_number_print z k Hk) as R. rewrite E in *.
    rewrite parse_value_step_number by exact Hc. exact R.
  - cbn [print_json]. unfold print_string, parse_value_step. cbn [skip_ws].
    change (is_ws dquote) with false. cbv iota.
    change (Ascii.eqb dquote "[") with false.
    change (Ascii.eqb dquote "{") with false.
    change (Ascii.eqb dquote dquote) with true. cbv iota.
    rewrite parse_chars_print. reflexivity.
  - rewrite print_json_list. unfold parse_value_step. cbn [skip_ws].
    change (is_ws "[") with false. cbv iota.
    change (Ascii.eqb "[" "[") with true. cbv iota.
    destruct l as [|x xs]; [reflexivity |].
    pose proof (print_items_length (x :: xs) k true) as L.
    rewrite print_items_cons in *.
    pose proof (print_json_head x (print_items print_json k false xs)) as Hh.
    pose proof (parse_items_print f k xs x
                  (List.length (print_json x (print_items print_json k false xs)))) as P.
    destruct (print_json x (print_items print_json k false xs)) as [|c r] eqn:E;
      [destruct Hh |].
    destruct Hh as [Hws Hb]. cbn [skip_ws]. rewrite Hws, Hb.
    rewrite P; [reflexivity | | cbn [List.length] in *; lia].
    rewrite Forall_forall in IH |- *. intros y Hy k' Hk'.
    apply IH; [exact Hy | | exact Hk'].
    cbn [depth] in Hf.
    pose proof (fold_max_le depth (x :: xs) y Hy). lia.
  - rewrite print_json_dict. unfold parse_value_step. cbn [skip_ws].
    change (is_ws "{") with false. cbv iota.
    change (Ascii.eqb "{" "[") with false.
    change (Ascii.eqb "{" "{") with true. cbv iota.
    destruct m as [|[key v] ms]; [reflexivity |].
    pose proof (print_members_length ((key, v) :: ms) k true) as L.
    rewrite print_members_cons in *. cbv zeta in *.
    pose proof (parse_members_print f k ms key v
      (List.length (print_string key
         (":"%char :: " "%char :: print_json v (print_members print_json k false ms))))) as P.
    unfold print_string in *. cbn [skip_ws].
    change (is_ws dquote) with false. cbv iota.
    change (Ascii.eqb dquote "}") with false. cbv iota.
    rewrite P; [reflexivity | | cbn [List.length] in *; lia].
    rewrite Forall_forall in IH |- *. intros kv Hkv k' Hk'.
    apply IH; [exact Hkv | | exact Hk'].
    cbn [depth] in Hf.
    pose proof (fold_max_le (fun kv => depth (snd kv)) ((key, v) :: ms) kv Hkv).
    cbn beta in *. lia.
Qed.

(** Reading the text of a value gives the value back. *)
Lemma loads_dumps (j : json) : loads (dumps j) = Some j.
Proof.
  unfold loads, dumps. rewrite list_ascii_of_string_of_list_ascii.
  pose proof (print_json_length j []) as L.
  rewrite parse_value_print; [reflexivity | lia | exact I].
Qed.

(** ** [int], [str] and [split] *)

Lemma lstrip_id (s : list ascii) :
  Forall (fun c => int_space c = false) s -> lstrip s = s.
Proof.
  destruct s as [|c r]; [reflexivity |]. intros H.
  inversion H as [|? ? Hc _]; subst. cbn [lstrip]. rewrite Hc. reflexivity.
Qed.

Lemma strip_id (s : list ascii) :
  Forall (fun c => int_space c = false) s -> strip s = s.
Proof.
  intros H. unfold strip. rewrite (lstrip_id s H).
  rewrite lstrip_id by (apply Forall_rev; exact H).
  apply rev_involutive.
Qed.

Lemma int_digits_all (s : list ascii) :
  forall a : N,
    Forall (fun c => is_digit c = true) s ->
    int_digits a s = Some (fst (read_digits a s)).
Proof.
  induction s as [|c r IH]; intros a H; [reflexivity |].
  inversion H as [|? ? Hc Hr]; subst. cbn [int_digits read_digits].
  unfold is_digit in Hc. destruct (digit_val c); [| discriminate Hc].
  apply IH. exact Hr.
Qed.

Lemma print_N_all_digits (n : N) :
  Forall (fun c => is_digit c = true) (print_N n []).
Proof.
  apply digits_acc_all_digits. constructor.
Qed.

Lemma is_digit_not_space (c : ascii) : is_digit c = true -> int_space c = false.
Proof.
  unfold is_digit. destruct (digit_val c) eqn:E; [| discriminate].
  intros _. apply (digit_val_facts _ _ E).
Qed.

Lemma int_unsigned_print_N (n : N) : int_unsigned (print_N n []) = Some n.
Proof.
  pose proof (print_N_all_digits n) as A.
  pose proof (read_digits_print_N n [] I) as R.
  destruct (print_N_head n []) as (d0 & r0 & E0 & _).
  destruct (print_N n []) as [|c r]; [discriminate E0 |]. clear E0.
  inversion A as [|? ? Hc Hr]; subst.
  unfold int_unsigned. cbn [read_digits] in R. unfold is_digit in Hc.
  destruct (digit_val c) as [d|]; [| discriminate Hc].
  rewrite (int_digits_all r d Hr).
  change (10 * 0 + d)%N with d in R. rewrite R. reflexivity.
Qed.

Lemma count_digits_minus (r : list ascii) :
  count_digits ("-"%char :: r) = count_digits r.
Proof. reflexivity. Qed.

(** [int(str(z))] is [z] again, unless [str(z)] has more digits than [int]
    converts. *)
Lemma int_str_int_limit (z : Z) :
  int (str_int z)
  = if (max_str_digits <? decimal_digits z)%N then Raise ValueError else Ok z.
Proof.
  unfold decimal_digits, int, str_int.
  rewrite list_ascii_of_string_of_list_ascii.
  assert (S : forall n,
             Forall (fun c => int_space c = false) (print_N n [])).
  { intros n. eapply Forall_impl; [| apply print_N_all_digits].
    intros c. apply is_digit_not_space. }
  assert (P : forall n,
             match strip (print_N n []) with
             | c :: r =>
                 if Ascii.eqb c "-" then (true, r)
                 else if Ascii.eqb c "+" then (false, r)
                 else (false, strip (print_N n []))
             | [] => (false, strip (print_N n []))
             end = (false, print_N n [])).
  { intros n. rewrite strip_id by apply S.
    destruct (print_N_head n []) as (d & r & E & Hd & _). rewrite E.
    destruct (digit_val_facts _ _ (digit_val_digit_char d Hd))
      as (_ & _ & -> & -> & _). reflexivity. }
  destruct z as [|p|p]; cbn [print_int].
  - rewrite P, int_unsigned_print_N. reflexivity.
  - rewrite P, int_unsigned_print_N. reflexivity.
  - rewrite strip_id by (constructor; [reflexivity | apply S]).
    change (Ascii.eqb "-" "-") with true. cbv iota.
    rewrite count_digits_minus, int_unsigned_print_N. reflexivity.
Qed.

(** [int(str(z)) == z], for a [z] whose text [int] is willing to convert. *)
Lemma int_str_int (z : Z) :
  (decimal_digits z <= max_str_digits)%N -> int (str_int z) = Ok z.
Proof.
  intros B. rewrite int_str_int_limit.
  apply N.ltb_ge in B. rewrite B. reflexivity.
Qed.

Lemma count_digits_digits_acc (fuel : nat) :
  forall (n : N) (k : list ascii),
    (count_digits (digits_acc fuel n k) <= N.of_nat fuel + count_digits k)%N.
Proof.
  induction fuel as [|fuel IH]; intros n k; cbn [digits_acc]; [lia |].
  assert (C : forall c, (count_digits (c :: k) <= N.succ (count_digits k))%N).
  { intros c. cbn [count_digits]. destruct (is_digit c); lia. }
  destruct (n <? 10)%N.
  - specialize (C (digit_char (n mod 10))). lia.
  - specialize (IH (n / 10)%N (digit_char (n mod 10) :: k)).
    specialize (C (digit_char (n mod 10))). lia.
Qed.

(** An integer below [2 ** 4300] in absolute value is within the limit. *)
Lemma decimal_digits_small (z : Z) :
  (Z.abs z < 2 ^ 4300)%Z -> (decimal_digits z <= max_str_digits)%N.
Proof.
  intros H. unfold decimal_digits, str_int.
  rewrite list_ascii_of_string_of_list_ascii.
  assert (B : forall n : N,
             (n < 2 ^ 4300)%N -> (count_digits (print_N n []) <= 4300)%N).
  { intros n Hn. unfold print_N.
    pose proof (count_digits_digits_acc (digits_fuel n) n []) as C.
    cbn [count_digits] in C. unfold digits_fuel in C.
    assert (L : (N.log2 n < 4300)%N).
    { destruct (N.eq_dec n 0) as [-> | Hz]; [reflexivity |].
      apply N.log2_lt_pow2; [lia | exact Hn]. }
    unfold digits_fuel. lia. }
  assert (E : (2 ^ 4300)%Z = Z.of_N (2 ^ 4300)%N).
  { rewrite N2Z.inj_pow. reflexivity. }
  unfold max_str_digits.
  destruct z as [|p|p]; cbn [print_int].
  - apply B. apply N.neq_0_lt_0, N.pow_nonzero. discriminate.
  - apply B. cbn [Z.abs] in H. rewrite E in H. lia.
  - rewrite count_digits_minus. apply B. cbn [Z.abs] in H. rewrite E in H. lia.
Qed.

(** Whatever [int] refuses, it refuses with [ValueError]. *)
Lemma mapM_int_raises (fields : list string) (e : PyExc) :
  mapM int fields = Raise e -> e = ValueError.
Proof.
  induction fields as [|s fields IH]; cbn [mapM]; [discriminate |].
  fold (mapM int). destruct (int s) as [z|e'] eqn:Es; cbn [bind].
  - destruct (mapM int fields) as [zs|e'']; [discriminate |].
    intros E. injection E as <-. apply IH. reflexivity.
  - intros E. injection E as <-. unfold int in Es.
    destruct (strip (list_ascii_of_string s)) as [|c r].
    + destruct (int_unsigned []); [| congruence].
      destruct (N.ltb max_str_digits (count_digits [])); [congruence | discriminate Es].
    + destruct (Ascii.eqb c "-"); [| destruct (Ascii.eqb c "+")];
        match type of Es with
        | context [int_unsigned ?x] => destruct (int_unsigned x)
        end;
        try match type of Es with
            | context [N.ltb ?a ?b] => destruct (N.ltb a b)
            end;
        (discriminate Es || congruence).
Qed.

Lemma str_int_no_comma (z : Z) : no_sep "," (str_int z).
Proof.
  unfold no_sep, str_int. rewrite list_ascii_of_string_of_list_ascii.
  assert (D : forall n, Forall (fun c => Ascii.eqb c "," = false) (print_N n [])).
  { intros n. eapply Forall_impl; [| apply print_N_all_digits].
    intros c. unfold is_digit. destruct (digit_val c) eqn:E; [| discriminate].
    intros _. apply (digit_val_facts _ _ E). }
  destruct z as [|p|p]; cbn [print_int]; try apply D.
  constructor; [reflexivity | apply D].
Qed.

Lemma split_nonempty (sep : ascii) (s : string) : split sep s <> [].
Proof.
  destruct s as [|c r]; cbn [split]; [discriminate |].
  destruct (Ascii.eqb c sep); [discriminate |].
  destruct (split sep r); discriminate.
Qed.

Lemma split_no_sep (sep : ascii) (s : string) :
  no_sep sep s -> split sep s = [s].
Proof.
  unfold no_sep. induction s as [|c r IH]; cbn [list_ascii_of_string split];
    intros H; [reflexivity |].
  inversion H as [|? ? Hc Hr]; subst. rewrite Hc, (IH Hr). reflexivity.
Qed.

Lemma split_append (sep : ascii) (x rest : string) :
  no_sep sep x ->
  split sep (x ++ String sep rest) = x :: split sep rest.
Proof.
  unfold no_sep. induction x as [|c r IH]; cbn [list_ascii_of_string split append];
    intros H.
  - rewrite Ascii.eqb_refl. reflexivity.
  - inversion H as [|? ? Hc Hr]; subst. rewrite Hc, (IH Hr). reflexivity.
Qed.

(** [sep.join(fields).split(sep) == fields] for a non-empty list of fields
    that do not contain the separator. *)
Lemma split_join (sep : ascii) (fs : list string) :
  fs <> [] -> Forall (no_sep sep) fs ->
  split sep (join (String sep EmptyString) fs) = fs.
Proof.
  unfold join. induction fs as [|x xs IH]; intros Hne H; [contradiction |].
  inversion H as [|? ? Hx Hxs]; subst.
  destruct xs as [|y ys].
  - apply split_no_sep. exact Hx.
  - change (concat (String sep EmptyString) (x :: y :: ys))
      with (x ++ String sep (concat (String sep EmptyString) (y :: ys)))%string.
    rewrite split_append by exact Hx. f_equal.
    apply IH; [discriminate | exact Hxs].
Qed.

Lemma mapM_map {A B : Type} (f : A -> Result B) (g : A -> B) (xs : list A) :
  (forall x, In x xs -> f x = Ok (g x)) -> mapM f xs = Ok (map g xs).
Proof.
  induction xs as [|x xs IH]; intros H; [reflexivity |].
  cbn [mapM map]. rewrite (H x (or_introl eq_refl)). cbn [bind].
  fold (mapM f). rewrite IH by (intros y Hy; apply H; right; exact Hy).
  reflexivity.
Qed.

Lemma mapM_fails {A B : Type} (f : A -> Result B) (xs : list A) (x : A) :
  In x xs -> is_ok (f x) = false -> is_ok (mapM f xs) = false.
Proof.
  induction xs as [|y ys IH]; intros Hin Hx; [destruct Hin |].
  cbn [mapM]. fold (mapM f). destruct Hin as [-> | Hin].
  - destruct (f x); [discriminate Hx | reflexivity].
  - destruct (f y); [| reflexivity]. cbn [bind].
    specialize (IH Hin Hx). destruct (mapM f ys); [discriminate IH | reflexivity].
Qed.

(** The comma-separated text of a list of ints splits into their texts. *)
Lemma split_id_text (ids : list Z) :
  ids <> [] -> split "," (join "," (map str_int ids)) = map str_int ids.
Proof.
  intros Hne. apply split_join.
  - destruct ids; [contradiction | discriminate].
  - apply Forall_forall. intros s Hs. apply in_map_iff in Hs.
    destruct Hs as (z & <- & _). apply str_int_no_comma.
Qed.

(** Parsing the text of a list of ints gives the list back, when [int]
    is willing to convert each of them. *)
Lemma parse_id_list (ids : list Z) :
  ids <> [] ->
  Forall (fun z => (decimal_digits z <= max_str_digits)%N) ids ->
  mapM int (split "," (join "," (map str_int ids))) = Ok ids.
Proof.
  intros Hne Hb. rewrite Forall_forall in Hb.
  rewrite split_id_text by exact Hne.
  rewrite (mapM_map int (fun s => match int s with Ok z => z | Raise _ => 0%Z end)).
  - f_equal. rewrite map_map. rewrite <- (map_id ids) at 2.
    apply map_ext_in. intros z Hz. rewrite int_str_int by (apply Hb, Hz).
    reflexivity.
  - intros s Hs. apply in_map_iff in Hs. destruct Hs as (z & <- & Hz).
    rewrite int_str_int by (apply Hb, Hz). reflexivity.
Qed.

(** ... and raises [ValueError] when one of them is too long for [int]. *)
Lemma parse_id_list_limit (ids : list Z) :
  ids <> [] ->
  Exists (fun z => (max_str_digits < decimal_digits z)%N) ids ->
  mapM int (split "," (join "," (map str_int ids))) = Raise ValueError.
Proof.
  intros Hne Hb. apply Exists_exists in Hb. destruct Hb as (z & Hz & Hlong).
  rewrite split_id_text by exact Hne.
  assert (F : is_ok (mapM int (map str_int ids)) = false).
  { apply (mapM_fails int _ (str_int z)).
    - apply in_map. exact Hz.
    - rewrite int_str_int_limit. apply N.ltb_lt in Hlong. rewrite Hlong.
      reflexivity. }
  destruct (mapM int (map str_int ids)) as [zs | e] eqn:E; [discriminate F |].
  rewrite (mapM_int_raises _ _ E). reflexivity.
Qed.

(** ** Dicts *)


Lemma dict_contains_get (d : Dict) (key : string) :
  dict_contains d key = false <-> dict_get d key = None.
Proof.
  unfold dict_contains. induction d as [|[k w] d IH]; cbn [dict_get existsb fst].
  - tauto.
  - rewrite orb_false_iff, IH. destruct (dict_get d key).
    + split; [intros [_ H]; discriminate H | discriminate].
    + destruct (String.eqb k key); split; try tauto; try discriminate.
      intros [H _]. discriminate H.
Qed.

Lemma dict_keys_In (d : Dict) (key : string) :
  In key (dict_keys d) <-> exists v, dict_get d key = Some v.
Proof.
  induction d as [|[k w] d IH]; cbn [dict_keys dict_get].
  - split; [intros [] | intros [v H]; discriminate H].
  - cbn [In]. rewrite filter_In, IH. destruct (dict_get d key) as [v'|].
    + destruct (String.eqb_spec key k) as [-> | Hne].
      * split; [intros _; eauto | intros _; left; reflexivity].
      * split; [intros _; eauto | intros _; right; split; eauto].
    + destruct (String.eqb_spec k key) as [-> | Hne].
      * split; [intros _; eauto | intros _; left; reflexivity].
      * split.
        -- intros [E | [[v H] _]]; [contradiction | discriminate H].
        -- intros [v H]. discriminate H.
Qed.


Lemma dict_get_single (key v : string) : dict_get [(key, v)] key = Some v.
Proof.
  cbn [dict_get]. rewrite String.eqb_refl. reflexivity.
Qed.

(** ** The filters *)

Section Filters.

Context {ML : MediaLib}.

Lemma _add_media_some (self_Media : option MediaDecl) (decl : MediaDecl) :
  _add_media self_Media {| admin_Media := Some decl |}
  = (Ok tt, {| admin_Media := Some (merged_decl decl self_Media) |}).
Proof.
  reflexivity.
Qed.

Lemma _add_media_none (self_Media : option MediaDecl) :
  _add_media self_Media {| admin_Media := None |}
  = (Raise AttributeError, {| admin_Media := None |}).
Proof.
  reflexivity.
Qed.

Lemma FiltrateFilter_init_some (cls : FilterClass) (request : HttpRequest)
  (params : Dict) (decl : MediaDecl) :
  FiltrateFilter_init cls request params {| admin_Media := Some decl |}
  = (Ok {| klass := cls; request := request;
           params := snd (SimpleListFilter_init (parameter_name cls) params);
           used_parameters := fst (SimpleListFilter_init (parameter_name cls) params) |},
     {| admin_Media := Some (merged_decl decl (Media_attr cls)) |}).
Proof.
  unfold FiltrateFilter_init. rewrite _add_media_some.
  destruct (SimpleListFilter_init (parameter_name cls) params). reflexivity.
Qed.

Lemma value_after_init (cls : FilterClass) (params : Dict) :
  SimpleListFilter_value (parameter_name cls)
    (fst (SimpleListFilter_init (parameter_name cls) params))
  = dict_get params (parameter_name cls).
Proof.
  unfold SimpleListFilter_value, SimpleListFilter_init.
  destruct (dict_get params (parameter_name cls)) as [v|]; cbn [fst].
  - apply dict_get_single.
  - reflexivity.
Qed.

Lemma TreeFilter_init_some (cls : TreeClass) (request : HttpRequest)
  (params : Dict) (decl : MediaDecl) :
  TreeFilter_init cls request params {| admin_Media := Some decl |}
  = let self :=
      {| klass := tree_base cls; request := request;
         params := snd (SimpleListFilter_init (parameter_name (tree_base cls)) params);
         used_parameters :=
           fst (SimpleListFilter_init (parameter_name (tree_base cls)) params) |} in
    let admin' := {| admin_Media := Some (merged_decl decl (Media_attr (tree_base cls))) |} in
    match dict_get params (parameter_name (tree_base cls)) with
    | Some v =>
        match mapM int (split "," v) with
        | Ok ids =>
            (Ok {| tree_class := cls; super := self; selected_nodes := ids |}, admin')
        | Raise e => (Raise e, admin')
        end
    | None => (Ok {| tree_class := cls; super := self; selected_nodes := [] |}, admin')
    end.
Proof.
  unfold TreeFilter_init. rewrite FiltrateFilter_init_some.
  unfold value. cbn [klass used_parameters]. rewrite value_after_init.
  reflexivity.
Qed.

End Filters.
(** *** Queryset translation of the tree filter *)

Section TreeQuery.

Variable Row : Type.
Variable lookup : string -> Arg -> Row -> bool.
Variable field : Row -> Z.

(** C1.  With a non-empty selection, [TreeFilter.queryset] in INCLUDE mode
    returns [queryset.filter] and in EXCLUDE mode [queryset.exclude] of the
    incoming query set, both called with the same single keyword argument:
    the configured name ([query_name] when set, [parameter_name] otherwise),
    passed as it is, bound to the list of selected identifiers.  Nothing in
    the code makes that keyword a membership test: only where the record
    store reads it as "the field is among the identifiers" are the rows of
    the INCLUDE result the incoming rows whose field is among the selected
    identifiers, and the rows of the EXCLUDE result the incoming rows for
    which it is not. *)
Theorem TreeFilter_queryset_include_exclude (self : TreeFilter)
  (queryset : QuerySet) (table : list Row) :
  let name :=
    match query_name (tree_class self) with
    | None => parameter_name (klass (super self))
    | Some n => n
    end in
  let kwargs := [(name, AInts (selected_nodes self))] in
  selected_nodes self <> [] ->
  (query_mode (tree_class self) = INCLUDE ->
   TreeFilter_queryset self queryset = Ok (QFilter queryset kwargs))
  /\ (query_mode (tree_class self) = EXCLUDE ->
      TreeFilter_queryset self queryset = Ok (QExclude queryset kwargs))
  /\ ((forall r, lookup name (AInts (selected_nodes self)) r
                 = contains (field r) (selected_nodes self)) ->
      (forall r, In r (rows Row lookup table (QFilter queryset kwargs))
                 <-> In r (rows Row lookup table queryset)
                     /\ In (field r) (selected_nodes self))
      /\ (forall r, In r (rows Row lookup table (QExclude queryset kwargs))
                    <-> In r (rows Row lookup table queryset)
                        /\ ~ In (field r) (selected_nodes self))).
Proof.
  intros name kwargs Hsel.
  split; [| split].
  - intros Hmode. unfold TreeFilter_queryset. fold name. fold kwargs.
    destruct (selected_nodes self); [contradiction |].
    rewrite Hmode. reflexivity.
  - intros Hmode. unfold TreeFilter_queryset. fold name. fold kwargs.
    destruct (selected_nodes self); [contradiction |].
    rewrite Hmode. reflexivity.
  - intros Hlookup.
    assert (Hsat : forall r, satisfies Row lookup kwargs r = true
                             <-> In (field r) (selected_nodes self)).
    { intros r. unfold satisfies, kwargs. cbn [forallb fst snd].
      rewrite andb_true_r, Hlookup. unfold contains. rewrite existsb_exists.
      split.
      - intros (x & Hx & E). apply Z.eqb_eq in E. subst x. exact Hx.
      - intros Hin. exists (field r). split; [exact Hin | apply Z.eqb_refl]. }
    split; intros r; cbn [rows]; rewrite filter_In.
    + rewrite Hsat. reflexivity.
    + rewrite negb_true_iff, <- not_true_iff_false, Hsat. reflexivity.
Qed.

End TreeQuery.

(** With the query name set to [dept_id__in], which the store reads as a
    membership test. *)
Lemma TreeFilter_queryset_include_exclude_witness :
  TreeFilter_queryset (example_in_filter INCLUDE [3; 5]%Z) QAll
  = Ok (QFilter QAll [("dept_id__in"%string, AInts [3; 5]%Z)])
  /\ TreeFilter_queryset (example_in_filter EXCLUDE [3; 5]%Z) QAll
     = Ok (QExclude QAll [("dept_id__in"%string, AInts [3; 5]%Z)])
  /\ (In 5%Z (rows Z django_reading [1; 3; 5; 8]%Z
                (QFilter QAll [("dept_id__in"%string, AInts [3; 5]%Z)]))
      <-> In 5%Z [1; 3; 5; 8]%Z /\ In 5%Z [3; 5]%Z)
  /\ (In 8%Z (rows Z django_reading [1; 3; 5; 8]%Z
                (QExclude QAll [("dept_id__in"%string, AInts [3; 5]%Z)]))
      <-> In 8%Z [1; 3; 5; 8]%Z /\ ~ In 8%Z [3; 5]%Z).
Proof.
  destruct (TreeFilter_queryset_include_exclude Z django_reading (fun r => r)
              (example_in_filter INCLUDE [3; 5]%Z) QAll [1; 3; 5; 8]%Z
              ltac:(discriminate)) as (Hinc & _ & Hrows).
  destruct (TreeFilter_queryset_include_exclude Z django_reading (fun r => r)
              (example_in_filter EXCLUDE [3; 5]%Z) QAll [1; 3; 5; 8]%Z
              ltac:(discriminate)) as (_ & Hexc & _).
  destruct (Hrows ltac:(intros r; reflexivity)) as [R1 R2].
  split; [exact (Hinc eq_refl) |].
  split; [exact (Hexc eq_refl) |].
  split; [exact (R1 5%Z) | exact (R2 8%Z)].
Defined.

(** With the default configuration the keyword is the bare parameter name:
    the INCLUDE call is [filter(dept_id=[3, 5])], which a store that keeps
    membership for [__in] names does not read as one.  Row 3 is in the table
    and among the selected identifiers, and is not in the result. *)
Lemma TreeFilter_queryset_bare_name_is_not_membership :
  TreeFilter_queryset (example_tree_filter INCLUDE [3; 5]%Z) QAll
  = Ok (QFilter QAll [("dept_id"%string, AInts [3; 5]%Z)])
  /\ rows Z django_reading [1; 3; 5; 8]%Z
       (QFilter QAll [("dept_id"%string, AInts [3; 5]%Z)]) = []
  /\ In 3%Z [1; 3; 5; 8]%Z
  /\ In 3%Z [3; 5]%Z
  /\ ~ (forall r,
          In r (rows Z django_reading [1; 3; 5; 8]%Z
                  (QFilter QAll [("dept_id"%string, AInts [3; 5]%Z)]))
          <-> In r [1; 3; 5; 8]%Z /\ In r [3; 5]%Z).
Proof.
  split; [reflexivity |].
  split; [reflexivity |].
  split; [right; left; reflexivity |].
  split; [left; reflexivity |].
  intros H. apply (proj2 (H 3%Z)).
  split; [right; left; reflexivity | left; reflexivity].
Qed.

(** *** Requests without the filter's key *)

(** C2.  When the query parameters do not contain the filter's key, the base
    filter's [value()] is [None] and the tree filter's selection is empty,
    and in both [queryset] returns the incoming query set as it is. *)
Theorem queryset_identity_without_key {ML : MediaLib} (cls : TreeClass)
  (request : HttpRequest) (params : Dict) (decl : MediaDecl) (queryset : QuerySet) :
  dict_contains params (parameter_name (tree_base cls)) = false ->
  (exists self model_admin',
      FiltrateFilter_init (tree_base cls) request params {| admin_Media := Some decl |}
      = (Ok self, model_admin')
      /\ value self = None
      /\ FiltrateFilter_queryset self queryset = queryset)
  /\ (exists self model_admin',
        TreeFilter_init cls request params {| admin_Media := Some decl |}
        = (Ok self, model_admin')
        /\ selected_nodes self = []
        /\ TreeFilter_queryset self queryset = Ok queryset).
Proof.
  intros Hkey. apply dict_contains_get in Hkey. split.
  - rewrite FiltrateFilter_init_some. eexists _, _. split; [reflexivity |].
    assert (V : value
                  {| klass := tree_base cls; request := request;
                     params := snd (SimpleListFilter_init
                                      (parameter_name (tree_base cls)) params);
                     used_parameters :=
                       fst (SimpleListFilter_init
                              (parameter_name (tree_base cls)) params) |} = None).
    { unfold value. cbn [klass used_parameters].
      rewrite value_after_init. exact Hkey. }
    split; [exact V |]. unfold FiltrateFilter_queryset. rewrite V. reflexivity.
  - rewrite TreeFilter_init_some. cbv zeta. rewrite Hkey.
    eexists _, _. split; [reflexivity |]. split; reflexivity.
Qed.

Lemma queryset_identity_without_key_witness :
  (exists self model_admin',
      FiltrateFilter_init (ML := AppendMedia) (tree_base (example_tree_class INCLUDE))
        {| GET := [("page", "2")] |}%string [("page", "2")]%string
        {| admin_Media := Some empty_media |}
      = (Ok self, model_admin')
      /\ value self = None
      /\ FiltrateFilter_queryset self QAll = QAll)
  /\ (exists self model_admin',
        TreeFilter_init (ML := AppendMedia) (example_tree_class INCLUDE)
          {| GET := [("page", "2")] |}%string [("page", "2")]%string
          {| admin_Media := Some empty_media |}
        = (Ok self, model_admin')
        /\ selected_nodes self = []
        /\ TreeFilter_queryset self QAll = Ok QAll).
Proof.
  apply (queryset_identity_without_key (ML := AppendMedia)
           (example_tree_class INCLUDE)).
  reflexivity.
Defined.

(** *** The selection state *)

(** C3.  When the filter's parameter holds the comma-separated text of a
    (non-empty) list of integers, each of at most [max_str_digits] digits,
    [TreeFilter.__init__] (for a model admin that declares its media) leaves
    exactly that list in [selected_nodes], in the order given and with its
    repetitions; when one of the integers has more digits, [int] refuses it
    and the constructor raises [ValueError]; when the parameter is absent,
    [selected_nodes] is the empty list. *)
Theorem TreeFilter_init_parses_selection {ML : MediaLib} (cls : TreeClass)
  (request : HttpRequest) (params : Dict) (decl : MediaDecl) (ids : list Z) :
  (ids <> [] ->
   dict_get params (parameter_name (tree_base cls))
   = Some (join "," (map str_int ids)) ->
   (Forall (fun z => (decimal_digits z <= max_str_digits)%N) ids ->
    exists self model_admin',
      TreeFilter_init cls request params {| admin_Media := Some decl |}
      = (Ok self, model_admin')
      /\ selected_nodes self = ids)
   /\ (Exists (fun z => (max_str_digits < decimal_digits z)%N) ids ->
       fst (TreeFilter_init cls request params {| admin_Media := Some decl |})
       = Raise ValueError))
  /\ (dict_get params (parameter_name (tree_base cls)) = None ->
      exists self model_admin',
        TreeFilter_init cls request params {| admin_Media := Some decl |}
        = (Ok self, model_admin')
        /\ selected_nodes self = []).
Proof.
  split.
  - intros Hne Hv. split.
    + intros Hb. rewrite TreeFilter_init_some. cbv zeta.
      rewrite Hv, (parse_id_list ids Hne Hb).
      eexists _, _. split; reflexivity.
    + intros Hb. rewrite TreeFilter_init_some. cbv zeta.
      rewrite Hv, (parse_id_list_limit ids Hne Hb). reflexivity.
  - intros Hv. rewrite TreeFilter_init_some. cbv zeta. rewrite Hv.
    eexists _, _. split; reflexivity.
Qed.

Lemma TreeFilter_init_parses_selection_witness :
  (exists self model_admin',
      TreeFilter_init (ML := AppendMedia) (example_tree_class INCLUDE)
        {| GET := [("dept_id", "5,-7,5,30")] |}%string [("dept_id", "5,-7,5,30")]%string
        {| admin_Media := Some empty_media |}
      = (Ok self, model_admin')
      /\ selected_nodes self = [5; -7; 5; 30]%Z)
  /\ (exists self model_admin',
        TreeFilter_init (ML := AppendMedia) (example_tree_class INCLUDE)
          {| GET := [] |} []
          {| admin_Media := Some empty_media |}
        = (Ok self, model_admin')
        /\ selected_nodes self = []).
Proof.
  split.
  - apply (proj1 (TreeFilter_init_parses_selection (ML := AppendMedia)
                    (example_tree_class INCLUDE)
                    {| GET := [("dept_id", "5,-7,5,30")] |}%string
                    [("dept_id", "5,-7,5,30")]%string empty_media [5; -7; 5; 30]%Z)).
    + discriminate.
    + reflexivity.
    + repeat constructor; vm_compute; discriminate.
  - apply (proj2 (TreeFilter_init_parses_selection (ML := AppendMedia)
                    (example_tree_class INCLUDE) {| GET := [] |} [] empty_media [])).
    reflexivity.
Defined.

(** The numeral of 4301 digits is the text of an integer (of [10 ** 4300]),
    and the constructor raises [ValueError] on it instead of storing the
    integer; and for a model admin that declares no media, the constructor
    raises [AttributeError] on the list [3,5] before it parses anything. *)
Lemma TreeFilter_init_rejects_long_numeral :
  forallb is_digit (list_ascii_of_string example_long_numeral) = true
  /\ read_digits 0 (list_ascii_of_string example_long_numeral) = ((10 ^ 4300)%N, [])
  /\ fst (TreeFilter_init (ML := AppendMedia) (example_tree_class INCLUDE)
            {| GET := [("dept_id"%string, example_long_numeral)] |}
            [("dept_id"%string, example_long_numeral)]
            {| admin_Media := Some empty_media |})
     = Raise ValueError
  /\ fst (TreeFilter_init (ML := AppendMedia) (example_tree_class INCLUDE)
            {| GET := [("dept_id", "3,5")] |}%string [("dept_id", "3,5")]%string
            {| admin_Media := None |})
     = Raise AttributeError.
Proof.
  split; [vm_compute; reflexivity |].
  split; [vm_compute; reflexivity |].
  split; [vm_compute; reflexivity |].
  reflexivity.
Qed.

(** *** An unknown query mode *)

(** C8.  With a non-empty selection and a [query_mode] that is neither
    INCLUDE nor EXCLUDE, [TreeFilter.queryset] raises
    [Exception("Unknown query_mode given.")]: no query set is derived from
    the incoming one.  The constructor does not look at the mode: it succeeds
    or fails exactly as it does for the same class with a known mode, so the
    error shows only when the query is translated. *)
Theorem TreeFilter_queryset_unknown_mode {ML : MediaLib} (self : TreeFilter)
  (queryset : QuerySet) (request : HttpRequest) (params : Dict)
  (model_admin : ModelAdmin) :
  selected_nodes self <> [] ->
  query_mode (tree_class self) <> INCLUDE ->
  query_mode (tree_class self) <> EXCLUDE ->
  TreeFilter_queryset self queryset = Raise (Exception_ "Unknown query_mode given.")
  /\ is_ok (fst (TreeFilter_init (tree_class self) request params model_admin))
     = is_ok (fst (TreeFilter_init
                     {| tree_base := tree_base (tree_class self);
                        query_mode := INCLUDE;
                        query_name := query_name (tree_class self) |}
                     request params model_admin)).
Proof.
  intros Hsel Hinc Hexc. split.
  - unfold TreeFilter_queryset.
    destruct (selected_nodes self) as [|id ids]; [contradiction |].
    apply Z.eqb_neq in Hinc, Hexc. rewrite Hinc, Hexc. reflexivity.
  - unfold TreeFilter_init. cbn [tree_base].
    destruct (FiltrateFilter_init (tree_base (tree_class self)) request params
                model_admin) as [[self0 | e] admin']; [| reflexivity].
    destruct (value self0) as [v|]; [| reflexivity].
    destruct (mapM int (split "," v)); reflexivity.
Qed.

Lemma TreeFilter_queryset_unknown_mode_witness :
  TreeFilter_queryset (example_tree_filter 3 [3; 5]%Z) QAll
  = Raise (Exception_ "Unknown query_mode given.")
  /\ is_ok (fst (TreeFilter_init (ML := AppendMedia) (example_tree_class 3)
                   {| GET := [("dept_id", "3,5")] |}%string [("dept_id", "3,5")]%string
                   example_admin))
     = is_ok (fst (TreeFilter_init (ML := AppendMedia)
                     {| tree_base := tree_base (example_tree_class 3);
                        query_mode := INCLUDE;
                        query_name := query_name (example_tree_class 3) |}
                     {| GET := [("dept_id", "3,5")] |}%string [("dept_id", "3,5")]%string
                     example_admin)).
Proof.
  apply (TreeFilter_queryset_unknown_mode (ML := AppendMedia)
           (example_tree_filter 3 [3; 5]%Z) QAll
           {| GET := [("dept_id", "3,5")] |}%string [("dept_id", "3,5")]%string
           example_admin).
  - discriminate.
  - discriminate.
  - discriminate.
Defined.

(** *** Media aggregation *)

(** C9.  Constructing a filter on a model admin that has a [Media] class
    overwrites that class's [css] and [js] with the merged media of the model
    admin, of [FiltrateFilter] and of the instance, in this order.  The
    change is made on the model admin itself: the tree filter leaves it there
    even when parsing the selection raises afterwards, and the next
    construction starts from the aggregated lists. *)
Theorem init_aggregates_media_on_model_admin {ML : MediaLib}
  (cls : FilterClass) (tcls : TreeClass) (request request2 : HttpRequest)
  (params params2 : Dict) (decl : MediaDecl) :
  let model_admin := {| admin_Media := Some decl |} in
  let model_admin1 := {| admin_Media := Some (merged_decl decl (Media_attr cls)) |} in
  is_ok (fst (FiltrateFilter_init cls request params model_admin)) = true
  /\ snd (FiltrateFilter_init cls request params model_admin) = model_admin1
  /\ snd (TreeFilter_init tcls request params model_admin)
     = {| admin_Media := Some (merged_decl decl (Media_attr (tree_base tcls))) |}
  /\ snd (FiltrateFilter_init cls request2 params2 model_admin1)
     = {| admin_Media :=
            Some (merged_decl (merged_decl decl (Media_attr cls)) (Media_attr cls)) |}.
Proof.
  cbv zeta. rewrite !FiltrateFilter_init_some, TreeFilter_init_some. cbv zeta.
  repeat split.
  destruct (dict_get params (parameter_name (tree_base tcls))) as [v|];
    [| reflexivity].
  destruct (mapM int (split "," v)); reflexivity.
Qed.

(** Without a [Media] class on the model admin the constructor raises
    [AttributeError] and leaves the model admin as it was. *)
Lemma init_without_admin_media {ML : MediaLib} (cls : FilterClass)
  (request : HttpRequest) (params : Dict) :
  FiltrateFilter_init cls request params {| admin_Media := None |}
  = (Raise AttributeError, {| admin_Media := None |}).
Proof.
  reflexivity.
Qed.

(** The model admin after one tree filter has been constructed on it, with
    media lists merged by appending. *)
Example init_changes_model_admin :
  snd (TreeFilter_init (ML := AppendMedia) (example_tree_class INCLUDE)
         {| GET := [] |} [] example_admin)
  = {| admin_Media := Some
         {| css := [("all", ["filtrate/css/filtrate.css"])]%string;
            js := ["admin/js/custom.js"; "filtrate/js/filtrate.js";
                   "filtrate/js/filtertree.js"]%string |} |}.
Proof.
  reflexivity.
Qed.

(** *** Echoing the query parameters *)

Lemma existsb_eqb_In (k : string) (l : list string) :
  existsb (String.eqb k) l = true <-> In k l.
Proof.
  rewrite existsb_exists. split.
  - intros (x & Hx & E). apply String.eqb_eq in E. subst x. exact Hx.
  - intros H. exists k. split; [exact H | apply String.eqb_refl].
Qed.


(** The tree filter's form echoes the other filters' parameters: its own
    key and the pagination key are left out, and a key given twice is echoed
    once, with its last value. *)
Example form_duplicate_getparams_example :
  let q := String "034"%char EmptyString in
  _form_duplicate_getparams
    {| klass := tree_base (example_tree_class INCLUDE);
       request := {| GET := [("q", "old"); ("dept_id", "3,5"); ("e", "1");
                             ("created__gte", "2020-01-01"); ("q", "new")] |};
       params := []; used_parameters := [] |}%string
    ["dept_id"%string]
  = Ok ("<input type=" ++ q ++ "hidden" ++ q ++ " name=" ++ q ++ "q" ++ q
        ++ " value=" ++ q ++ "new" ++ q ++ "/>"
        ++ "<input type=" ++ q ++ "hidden" ++ q ++ " name=" ++ q ++ "created__gte" ++ q
        ++ " value=" ++ q ++ "2020-01-01" ++ q ++ "/>")%string.
Proof.
  reflexivity.
Qed.

(** *** The date range filter *)

(** C6, as the code has it.  [DateRangeFilter] has no [queryset] of its own:
    when the request does not carry the key [parameter_name] itself, the
    query set is returned as it came, whether the "from" parameter
    ([parameter_name__gte]), the "to" parameter ([parameter_name__lte]), both
    or neither are given.  The two values only fill the form that [_get_form]
    builds: "from" alone gives the single entry [parameter_name__gte__alt],
    both give that entry and [parameter_name__lte__alt], neither gives an
    empty form. *)
Theorem DateRangeFilter_bounds_only_in_form {ML : MediaLib} (cls : FilterClass)
  (request : HttpRequest) (params : Dict) (decl : MediaDecl) (queryset : QuerySet) :
  let from_name := (parameter_name cls ++ "__gte")%string in
  let to_name := (parameter_name cls ++ "__lte")%string in
  dict_contains params (parameter_name cls) = false ->
  exists self model_admin',
    FiltrateFilter_init cls request params {| admin_Media := Some decl |}
    = (Ok self, model_admin')
    /\ DateRangeFilter_queryset self queryset = queryset
    /\ (forall d1,
          dict_get (GET request) from_name = Some d1 -> d1 <> EmptyString ->
          dict_get (GET request) to_name = None ->
          data (_get_form self) = [((from_name ++ "__alt")%string, d1)])
    /\ (forall d1 d2,
          dict_get (GET request) from_name = Some d1 -> d1 <> EmptyString ->
          dict_get (GET request) to_name = Some d2 -> d2 <> EmptyString ->
          data (_get_form self)
          = [((from_name ++ "__alt")%string, d1); ((to_name ++ "__alt")%string, d2)])
    /\ (dict_get (GET request) from_name = None ->
        dict_get (GET request) to_name = None ->
        data (_get_form self) = []).
Proof.
  intros from_name to_name Hkey. apply dict_contains_get in Hkey.
  rewrite FiltrateFilter_init_some. eexists _, _. split; [reflexivity |].
  split; [| split; [| split]].
  - unfold DateRangeFilter_queryset, FiltrateFilter_queryset, value.
    cbn [klass used_parameters]. rewrite value_after_init, Hkey. reflexivity.
  - intros d1 H1 Hd1 H2. unfold _get_form, add_data. cbn [klass Filtrate.request data].
    fold from_name. fold to_name. rewrite H1, H2.
    apply String.eqb_neq in Hd1. rewrite Hd1. reflexivity.
  - intros d1 d2 H1 Hd1 H2 Hd2. unfold _get_form, add_data. cbn [klass Filtrate.request data].
    fold from_name. fold to_name. rewrite H1, H2.
    apply String.eqb_neq in Hd1, Hd2. rewrite Hd1, Hd2. reflexivity.
  - intros H1 H2. unfold _get_form, add_data. cbn [klass Filtrate.request data].
    fold from_name. fold to_name. rewrite H1, H2. reflexivity.
Qed.

Lemma DateRangeFilter_bounds_only_in_form_witness :
  exists self model_admin',
    FiltrateFilter_init (ML := AppendMedia) example_date_class
      {| GET := example_from_to |} example_from_to example_admin
    = (Ok self, model_admin')
    /\ DateRangeFilter_queryset self QAll = QAll
    /\ data (_get_form self)
       = [("created__gte__alt", "2020-01-01"); ("created__lte__alt", "2020-12-31")]%string.
Proof.
  destruct (DateRangeFilter_bounds_only_in_form (ML := AppendMedia) example_date_class
              {| GET := example_from_to |} example_from_to
              {| css := []; js := ["admin/js/custom.js"%string] |} QAll eq_refl)
    as (self & model_admin' & E & Q & _ & Hboth & _).
  exists self, model_admin'. split; [exact E |]. split; [exact Q |].
  apply (Hboth "2020-01-01" "2020-12-31")%string; (reflexivity || discriminate).
Defined.

(** C6 as stated fails: with only [created__gte=2020-01-01] in
    the request the date range filter returns the incoming query set, which
    carries no lower bound. *)
Lemma DateRangeFilter_from_only_adds_no_bound :
  exists self model_admin',
    FiltrateFilter_init (ML := AppendMedia) example_date_class
      {| GET := example_from_only |} example_from_only example_admin
    = (Ok self, model_admin')
    /\ DateRangeFilter_queryset self QAll = QAll
    /\ has_keyword "created__gte" (DateRangeFilter_queryset self QAll) = false.
Proof.
  eexists _, _. split; [reflexivity |]. split; reflexivity.
Qed.

(** ** Tree serialization *)

Section Serialization.

Variable selected : list Z.

Lemma parse_node_tuple (s : Result string) (pk : option Z)
  (label_obj children_obj : PyObj) (extra : list PyObj) :
  parse_node selected
    (PyObject TyTuple s pk (Some (label_obj :: children_obj :: extra)))
  = (title <- force_str label_obj ;;
     new_tree <- parse_tree selected children_obj ;;
     Ok (parent_dict title new_tree)).
Proof.
  destruct children_obj as [ty' s' pk' [children |]]; reflexivity.
Qed.

Lemma parse_node_leaf (ty : PyType) (s : Result string) (pk : option Z)
  (items : option (list PyObj)) :
  ty <> TyTuple ->
  parse_node selected (PyObject ty s pk items)
  = (title <- s ;;
     match pk with
     | None => Raise AttributeError
     | Some id => Ok (leaf_dict id (contains id selected) title)
     end).
Proof.
  intros H. destruct ty; [contradiction | reflexivity | reflexivity].
Qed.

(** [parse_node] in the shape of the loop body of [parse_tree]. *)
Lemma parse_node_eq (node : PyObj) :
  parse_node selected node
  = if is_tuple node then
      n0 <- getitem node 0 ;;
      title <- force_str n0 ;;
      n1 <- getitem node 1 ;;
      new_tree <- parse_tree selected n1 ;;
      Ok (parent_dict title new_tree)
    else
      title <- force_str node ;;
      match ob_pk node with
      | None => Raise AttributeError
      | Some id => Ok (leaf_dict id (contains id selected) title)
      end.
Proof.
  destruct node as [ty s pk items]. destruct ty; try reflexivity.
  destruct items as [[|n0 [|n1 rest]] |]; try reflexivity.
  rewrite parse_node_tuple. reflexivity.
Qed.

Lemma mapM_Forall2 {A B C : Type} (f : A -> Result B) (g : C -> B)
  (xs : list A) (ys : list C) :
  Forall2 (fun x y => f x = Ok (g y)) xs ys -> mapM f xs = Ok (map g ys).
Proof.
  induction 1 as [|x y xs ys Hxy _ IH]; [reflexivity |].
  cbn [mapM map]. fold (mapM f). rewrite Hxy, IH. reflexivity.
Qed.

Lemma parse_node_represents (t : Tree) :
  forall o, represents o t -> parse_node selected o = Ok (tree_json selected t).
Proof.
  induction t as [pk title | label ts IH] using Tree_ind'; intros o H;
    inversion H as [ty pk' title' items Hty | s pk' l c extra nodes label' ts' Hl Hc Hall];
    subst.
  - rewrite parse_node_leaf by exact Hty. reflexivity.
  - rewrite parse_node_tuple, Hl. cbn [bind]. unfold parse_tree, iterate.
    rewrite Hc. cbn [bind].
    rewrite (mapM_Forall2 (parse_node selected) (tree_json selected) nodes ts).
    + reflexivity.
    + clear - IH Hall. induction Hall as [|o t os ts' Hot _ IHall];
        constructor; inversion IH; subst; auto.
Qed.

Lemma parse_tree_represents (tree : PyObj) (nodes : list PyObj) (ts : list Tree) :
  ob_items tree = Some nodes -> Forall2 represents nodes ts ->
  parse_tree selected tree = Ok (map (tree_json selected) ts).
Proof.
  intros Hitems Hall. unfold parse_tree, iterate. rewrite Hitems. cbn [bind].
  apply mapM_Forall2. eapply Forall2_impl; [| exact Hall].
  intros o t. apply parse_node_represents.
Qed.

Lemma decode_parent (label : string) (l : list json) :
  decode (parent_dict label l)
  = match decode_all l with
    | Some ns => Some (JsParent label ns)
    | None => None
    end.
Proof.
  reflexivity.
Qed.

Lemma decode_all_tree_json (ts : list Tree) :
  Forall (fun t => decode (tree_json selected t) = Some (mark selected t)) ts ->
  decode_all (map (tree_json selected) ts) = Some (map (mark selected) ts).
Proof.
  induction 1 as [|t ts Ht _ IH]; [reflexivity |].
  cbn [map]. unfold decode_all in *. cbn [decode_list].
  rewrite Ht, IH. reflexivity.
Qed.

Lemma decode_tree_json (t : Tree) :
  decode (tree_json selected t) = Some (mark selected t).
Proof.
  induction t as [pk title | label ts IH] using Tree_ind'.
  - reflexivity.
  - cbn [tree_json mark]. rewrite decode_parent, (decode_all_tree_json ts IH).
    reflexivity.
Qed.



Lemma js_leaves_mark (t : Tree) :
  js_leaves (mark selected t)
  = map (fun pk => (pk, contains pk selected)) (tree_leaves t).
Proof.
  induction t as [pk title | label ts IH] using Tree_ind'; [reflexivity |].
  cbn [mark js_leaves tree_leaves].
  induction IH as [|t ts Ht _ IHts]; [reflexivity |].
  cbn [map flat_map]. rewrite Ht, IHts, map_app. reflexivity.
Qed.

Lemma flat_map_mark {A : Type} (f : JsNode -> list A) (g : Tree -> list A)
  (ts : list Tree) :
  (forall t, f (mark selected t) = g t) ->
  flat_map f (map (mark selected) ts) = flat_map g ts.
Proof.
  intros H. induction ts as [|t ts IH]; [reflexivity |].
  cbn [map flat_map]. rewrite H, IH. reflexivity.
Qed.

(** Whatever [parse_node] accepts is a tree node. *)
Lemma parse_node_complete (o : PyObj) :
  (forall j, parse_node selected o = Ok j -> exists t, represents o t)
  /\ (forall nodes js,
        ob_items o = Some nodes ->
        mapM (parse_node selected) nodes = Ok js ->
        exists ts, Forall2 represents nodes ts).
Proof.
  induction o as [ty s pk | ty s pk items IH] using PyObj_ind'.
  - split; [| intros nodes js H; discriminate H].
    intros j H. destruct ty; [discriminate H | |];
      cbn [parse_node] in H;
      (destruct s as [title | e]; [| discriminate H]);
      (destruct pk as [id |]; [| discriminate H]);
      eexists; apply represents_leaf; discriminate.
  - assert (Hnodes : forall js,
               mapM (parse_node selected) items = Ok js ->
               exists ts, Forall2 represents items ts).
    { clear - IH. induction IH as [|x xs [Hx _] _ IHxs]; intros js H.
      - exists []. constructor.
      - cbn [mapM] in H. fold (mapM (parse_node selected)) in H.
        destruct (parse_node selected x) as [j |] eqn:Ex; [| discriminate H].
        cbn [bind] in H.
        destruct (mapM (parse_node selected) xs) as [js' |] eqn:Exs;
          [| discriminate H].
        destruct (Hx j eq_refl) as [t Ht].
        destruct (IHxs js' eq_refl) as [ts Hts].
        exists (t :: ts). constructor; assumption. }
    split.
    + intros j H. destruct ty.
      * destruct items as [|n0 [|n1 extra]]; [discriminate H | |].
        -- cbn [parse_node] in H. destruct (force_str n0); discriminate H.
        -- rewrite parse_node_tuple in H.
           destruct (force_str n0) as [label |] eqn:E0; [| discriminate H].
           cbn [bind] in H. unfold parse_tree, iterate in H.
           destruct (ob_items n1) as [children |] eqn:E1; [| discriminate H].
           cbn [bind] in H.
           destruct (mapM (parse_node selected) children) as [js |] eqn:Ec;
             [| discriminate H].
           inversion IH as [|? ? _ IH']; subst.
           inversion IH' as [|? ? [_ H1] _]; subst.
           destruct (H1 children js E1 Ec) as [ts Hts].
           exists (Node label ts). eapply represents_node; eassumption.
      * cbn [parse_node] in H.
        destruct s as [title | e]; [| discriminate H].
        destruct pk as [id |]; [| discriminate H].
        eexists. apply represents_leaf. discriminate.
      * cbn [parse_node] in H.
        destruct s as [title | e]; [| discriminate H].
        destruct pk as [id |]; [| discriminate H].
        eexists. apply represents_leaf. discriminate.
    + intros nodes js E H. cbn [ob_items] in E. injection E as <-.
      exact (Hnodes js H).
Qed.

End Serialization.

(** What [_tree_to_json] returns on a tree, and what the client reads in
    it. *)
Lemma tree_to_json_read (self : TreeFilter) (tree : PyObj) (nodes : list PyObj)
  (ts : list Tree) :
  ob_items tree = Some nodes -> Forall2 represents nodes ts ->
  exists s : string,
    _tree_to_json self tree = Ok s
    /\ read_tree s = Some (map (mark (selected_nodes self)) ts).
Proof.
  intros Hitems Hall. unfold _tree_to_json.
  rewrite (parse_tree_represents (selected_nodes self) tree nodes ts Hitems Hall).
  cbn [bind]. eexists. split; [reflexivity |].
  unfold read_tree. rewrite loads_dumps.
  apply decode_all_tree_json. apply Forall_forall. intros t _.
  apply decode_tree_json.
Qed.

(** The trees on which [_tree_to_json] returns are the ones made of leaves
    and (label, children) tuples. *)
Lemma tree_to_json_returns (self : TreeFilter) (tree : PyObj) (s : string) :
  _tree_to_json self tree = Ok s ->
  exists nodes ts, ob_items tree = Some nodes /\ Forall2 represents nodes ts.
Proof.
  unfold _tree_to_json, parse_tree, iterate. intros H.
  destruct (ob_items tree) as [nodes |] eqn:E; [| discriminate H].
  cbn [bind] in H.
  destruct (mapM (parse_node (selected_nodes self)) nodes) as [js |] eqn:Ej;
    [| discriminate H].
  destruct (proj2 (parse_node_complete (selected_nodes self) tree) nodes js E Ej)
    as [ts Hts].
  exists nodes, ts. split; [reflexivity | exact Hts].
Qed.

(** C4.  Whenever [_tree_to_json] returns a text, the tree it was given is
    made of leaves and (label, children) tuples, the client reads that text
    as a list of nodes, and the leaves it finds there are, in depth-first
    order, the leaves of the tree, each flagged [is_selected] exactly when
    its [pk] is in the selection; with an empty selection every flag is
    false. *)
Theorem tree_to_json_marks_selected_leaves (self : TreeFilter) (tree : PyObj)
  (s : string) :
  _tree_to_json self tree = Ok s ->
  exists (nodes : list PyObj) (ts : list Tree) (read : list JsNode),
    ob_items tree = Some nodes
    /\ Forall2 represents nodes ts
    /\ read_tree s = Some read
    /\ flat_map js_leaves read
       = map (fun pk => (pk, contains pk (selected_nodes self)))
             (flat_map tree_leaves ts)
    /\ (forall pk flag,
          In (pk, flag) (flat_map js_leaves read) ->
          (flag = true <-> In pk (selected_nodes self)))
    /\ (selected_nodes self = [] ->
        forall pk flag, In (pk, flag) (flat_map js_leaves read) -> flag = false).
Proof.
  intros Hs.
  destruct (tree_to_json_returns self tree s Hs) as (nodes & ts & Hitems & Hall).
  destruct (tree_to_json_read self tree nodes ts Hitems Hall) as (s' & Hs' & Hread).
  rewrite Hs in Hs'. injection Hs' as <-.
  exists nodes, ts, (map (mark (selected_nodes self)) ts).
  assert (L : flat_map js_leaves (map (mark (selected_nodes self)) ts)
              = map (fun pk => (pk, contains pk (selected_nodes self)))
                    (flat_map tree_leaves ts)).
  { rewrite (flat_map_mark (selected_nodes self) js_leaves
               (fun t => map (fun pk => (pk, contains pk (selected_nodes self)))
                             (tree_leaves t)))
      by apply js_leaves_mark.
    clear. induction ts as [|t ts' IH]; [reflexivity |].
    cbn [flat_map]. rewrite map_app, IH. reflexivity. }
  assert (F : forall pk flag,
             In (pk, flag) (flat_map js_leaves (map (mark (selected_nodes self)) ts)) ->
             flag = contains pk (selected_nodes self)).
  { intros pk flag Hin. rewrite L in Hin. apply in_map_iff in Hin.
    destruct Hin as (pk' & E & _). injection E as -> <-. reflexivity. }
  split; [exact Hitems |]. split; [exact Hall |]. split; [exact Hread |].
  split; [exact L |]. split.
  - intros pk flag Hin. rewrite (F pk flag Hin). unfold contains.
    rewrite existsb_exists. split.
    + intros (x & Hx & Ex). apply Z.eqb_eq in Ex. subst x. exact Hx.
    + intros Hpk. exists pk. split; [exact Hpk | apply Z.eqb_refl].
  - intros Hempty pk flag Hin. rewrite (F pk flag Hin), Hempty. reflexivity.
Qed.

Lemma tree_to_json_marks_selected_leaves_witness :
  exists read : list JsNode,
    read_tree example_text = Some read
    /\ flat_map js_leaves read = [(5, true); (3, false); (8, true)]%Z.
Proof.
  destruct (tree_to_json_marks_selected_leaves
              (example_tree_filter INCLUDE [5; 8]%Z) example_tree example_text
              eq_refl)
    as (nodes & ts & read & Hitems & Hall & Hread & Hleaves & _).
  exists read. split; [exact Hread |].
  vm_compute in Hread. injection Hread as <-. reflexivity.
Defined.



Lemma visits_fails (selected : list Z) (root n : PyObj) :
  visits root n ->
  is_ok (parse_node selected n) = false ->
  is_ok (parse_node selected root) = false.
Proof.
  induction 1 as [n | s pk l c extra nodes x n Hc Hin _ IH]; intros Hn;
    [exact Hn |].
  rewrite parse_node_tuple. destruct (force_str l); [| reflexivity].
  cbn [bind]. unfold parse_tree, iterate. rewrite Hc. cbn [bind].
  pose proof (mapM_fails (parse_node selected) nodes x Hin (IH Hn)) as F.
  destruct (mapM (parse_node selected) nodes); [discriminate F | reflexivity].
Qed.

(** C10.  [parse_tree] takes a node for a parent exactly when its type is
    [tuple] itself.  Of such a node only the first element (the label) and
    the second (the children) are read, whatever follows them.  A node of any
    other type, a tuple subclass included, is serialized as a leaf from its
    string form and its [pk], whatever it contains.  And when the walk
    reaches a node of another type that has no [pk], or whose string form
    cannot be taken, serialization fails. *)
Theorem parse_tree_dispatches_on_exact_type (self : TreeFilter) :
  (forall s pk label_obj children_obj extra,
      parse_node (selected_nodes self)
        (PyObject TyTuple s pk (Some (label_obj :: children_obj :: extra)))
      = (title <- force_str label_obj ;;
         new_tree <- parse_tree (selected_nodes self) children_obj ;;
         Ok (parent_dict title new_tree)))
  /\ (forall ty s pk items,
        ty <> TyTuple ->
        parse_node (selected_nodes self) (PyObject ty s pk items)
        = (title <- s ;;
           match pk with
           | None => Raise AttributeError
           | Some id => Ok (leaf_dict id (contains id (selected_nodes self)) title)
           end))
  /\ (forall tree nodes root n,
        ob_items tree = Some nodes -> In root nodes -> visits root n ->
        ob_type n <> TyTuple ->
        ob_pk n = None \/ is_ok (force_str n) = false ->
        is_ok (_tree_to_json self tree) = false).
Proof.
  split; [| split].
  - intros. apply parse_node_tuple.
  - intros. apply parse_node_leaf. assumption.
  - intros tree nodes root n Hitems Hroot Hvisits Hty Hbad.
    assert (Hn : is_ok (parse_node (selected_nodes self) n) = false).
    { destruct n as [ty s pk items]. cbn [ob_type ob_pk force_str] in *.
      rewrite parse_node_leaf by exact Hty.
      destruct Hbad as [-> | Hs].
      - destruct s; reflexivity.
      - destruct s; [discriminate Hs | reflexivity]. }
    pose proof (visits_fails _ _ _ Hvisits Hn) as Hr.
    unfold _tree_to_json, parse_tree, iterate. rewrite Hitems. cbn [bind].
    pose proof (mapM_fails _ _ _ Hroot Hr) as F.
    destruct (mapM (parse_node (selected_nodes self)) nodes);
      [discriminate F | reflexivity].
Qed.

Lemma parse_tree_dispatches_on_exact_type_witness :
  parse_node [7]%Z (py_namedtuple 7 "Pair" [py_str "a"; py_tuple []])%string
  = Ok (leaf_dict 7 true "Pair")
  /\ is_ok (_tree_to_json (example_tree_filter INCLUDE [7]%Z) example_bad_tree) = false.
Proof.
  destruct (parse_tree_dispatches_on_exact_type (example_tree_filter INCLUDE [7]%Z))
    as (_ & Hleaf & Hfail).
  split.
  - apply (Hleaf TyTupleSubclass (Ok "Pair"%string) (Some 7%Z)
             (Some [py_str "a"; py_tuple []])%string).
    discriminate.
  - apply (Hfail example_bad_tree
             [py_instance 5 "Sales";
              py_tuple [py_str "Research";
                        py_tuple [py_instance 3 "Lab"; py_str "Library"]]]%string
             (py_tuple [py_str "Research";
                        py_tuple [py_instance 3 "Lab"; py_str "Library"]])%string
             (py_str "Library")).
    + reflexivity.
    + right. left. reflexivity.
    + eapply visits_child; [reflexivity | right; left; reflexivity | apply visits_self].
    + discriminate.
    + left. reflexivity.
Defined.

(** ** Further properties of the filters *)

Lemma append_assoc (a b c : string) : ((a ++ b) ++ c = a ++ (b ++ c))%string.
Proof.
  induction a as [|x a IH]; cbn [append]; [reflexivity |]. rewrite IH. reflexivity.
Qed.

Lemma append_empty_r (a : string) : (a ++ EmptyString)%string = a.
Proof.
  induction a as [|x a IH]; cbn [append]; [reflexivity |]. rewrite IH. reflexivity.
Qed.

Lemma append_length (a b : string) :
  String.length (a ++ b) = String.length a + String.length b.
Proof.
  induction a as [|x a IH]; cbn [append String.length]; [reflexivity |].
  rewrite IH. reflexivity.
Qed.

Lemma list_ascii_of_string_append (a b : string) :
  list_ascii_of_string (a ++ b) = list_ascii_of_string a ++ list_ascii_of_string b.
Proof.
  induction a as [|x a IH]; cbn [append list_ascii_of_string]; [reflexivity |].
  rewrite IH. reflexivity.
Qed.


(** *** The echoed parameters *)

Lemma form_duplicate_getparams_eq (self : FiltrateFilter) (omitted_fields : list string) :
  _form_duplicate_getparams self omitted_fields
  = Ok (join "" (map (fun kv => hidden_input (fst kv) (snd kv))
                     (echoed (GET (request self)) omitted_fields))).
Proof.
  unfold _form_duplicate_getparams, echoed.
  rewrite (mapM_map _ (fun k => hidden_input k
             match dict_get (GET (request self)) k with
             | Some v => v
             | None => EmptyString
             end)).
  - cbn [bind]. rewrite map_map. reflexivity.
  - intros k Hk. apply filter_In in Hk. destruct Hk as [Hk _].
    apply dict_keys_In in Hk. destruct Hk as [v Hv].
    unfold dict_getitem. rewrite Hv. reflexivity.
Qed.

Lemma echoed_In (G : Dict) (omitted_fields : list string) (k v : string) :
  In (k, v) (echoed G omitted_fields)
  <-> dict_get G k = Some v /\ ~ In k omitted_fields /\ k <> "e"%string.
Proof.
  unfold echoed. rewrite in_map_iff.
  assert (Hkeep : forall k,
             negb (existsb (String.eqb k) (omitted_fields ++ ["e"%string])) = true
             <-> ~ In k omitted_fields /\ k <> "e"%string).
  { intros x. rewrite negb_true_iff, <- not_true_iff_false.
    rewrite existsb_eqb_In, in_app_iff. cbn [In]. split.
    - intros H. split; [tauto |]. intros ->. tauto.
    - intros [H1 H2] [H | [H | []]]; [tauto | congruence]. }
  split.
  - intros (k' & E & Hin). injection E as -> <-.
    apply filter_In in Hin. destruct Hin as [Hk Hkp].
    apply dict_keys_In in Hk. destruct Hk as [v Hv].
    rewrite Hv. split; [reflexivity | apply Hkeep, Hkp].
  - intros [Hv Hk]. exists k. split.
    + rewrite Hv. reflexivity.
    + apply filter_In. split; [apply dict_keys_In; eauto | apply Hkeep, Hk].
Qed.

Lemma join_empty_sep_nil (parts : list string) :
  (forall p, In p parts -> p <> EmptyString) ->
  join "" parts = EmptyString -> parts = [].
Proof.
  unfold join. destruct parts as [|p ps]; [reflexivity |]. intros Hne H.
  exfalso. apply (Hne p (or_introl eq_refl)).
  destruct ps as [|q qs]; cbn [concat] in H; [exact H |].
  destruct p; [reflexivity | discriminate H].
Qed.

(** X1.  [_form_duplicate_getparams] returns the empty string exactly when
    there is nothing to echo: every key of the query parameters is among
    [omitted_fields] or is the pagination key ["e"]. *)
Theorem form_duplicate_getparams_empty (self : FiltrateFilter)
  (omitted_fields : list string) :
  _form_duplicate_getparams self omitted_fields = Ok EmptyString
  <-> forall k, dict_contains (GET (request self)) k = true ->
                In k omitted_fields \/ k = "e"%string.
Proof.
  rewrite form_duplicate_getparams_eq. split.
  - intros H k Hk. injection H as H. apply join_empty_sep_nil in H.
    + destruct (in_dec string_dec k omitted_fields) as [Hin | Hout]; [left; exact Hin |].
      destruct (string_dec k "e") as [He | Hne]; [right; exact He |].
      exfalso.
      destruct (dict_get (GET (request self)) k) as [v|] eqn:Ev.
      * apply map_eq_nil in H.
        assert (Hin : In (k, v) (echoed (GET (request self)) omitted_fields))
          by (apply echoed_In; auto).
        rewrite H in Hin. destruct Hin.
      * apply dict_contains_get in Ev. congruence.
    + intros p Hp. apply in_map_iff in Hp. destruct Hp as (kv & <- & _).
      discriminate.
  - intros H.
    assert (E : echoed (GET (request self)) omitted_fields = []).
    { destruct (echoed (GET (request self)) omitted_fields) as [|[k v] rest] eqn:E;
        [reflexivity |].
      assert (Hin : In (k, v) (echoed (GET (request self)) omitted_fields))
        by (rewrite E; left; reflexivity).
      apply echoed_In in Hin. destruct Hin as (Hv & Ho & He).
      assert (Hc : dict_contains (GET (request self)) k = true).
      { destruct (dict_contains (GET (request self)) k) eqn:Ec; [reflexivity |].
        apply dict_contains_get in Ec. congruence. }
      destruct (H k Hc); contradiction. }
    rewrite E. reflexivity.
Qed.

(** X2.  [_form_duplicate_getparams] writes keys and values as they are:
    a double quote in a value is not escaped, so the request [k=v" value="w]
    and the request [k" value="v=w] are echoed as the same text. *)
Theorem form_duplicate_getparams_does_not_escape (cls : FilterClass)
  (ps us : Dict) (k v w : string) :
  let inject := (quote ++ " value=" ++ quote)%string in
  k <> "e"%string ->
  _form_duplicate_getparams
    {| klass := cls; request := {| GET := [(k, (v ++ inject ++ w)%string)] |};
       params := ps; used_parameters := us |} []
  = _form_duplicate_getparams
      {| klass := cls; request := {| GET := [((k ++ inject ++ v)%string, w)] |};
         params := ps; used_parameters := us |} [].
Proof.
  intros inject Hk.
  assert (Hk' : (k ++ inject ++ v)%string <> "e"%string).
  { intros E. apply (f_equal String.length) in E.
    rewrite !append_length in E. cbn in E. lia. }
  assert (S : forall key val,
             key <> "e"%string -> echoed [(key, val)] [] = [(key, val)]).
  { intros key val Hkey. apply String.eqb_neq in Hkey.
    unfold echoed. cbn [dict_keys filter app existsb]. rewrite Hkey.
    cbn [orb negb map dict_get]. rewrite String.eqb_refl. reflexivity. }
  rewrite !form_duplicate_getparams_eq. cbn [Filtrate.request GET].
  rewrite (S _ _ Hk), (S _ _ Hk'). cbn [map fst snd join concat].
  f_equal. unfold hidden_input, inject. rewrite !append_assoc. reflexivity.
Qed.

Lemma form_duplicate_getparams_does_not_escape_witness :
  _form_duplicate_getparams
    {| klass := example_date_class;
       request := {| GET := [("q", "a" ++ (quote ++ " value=" ++ quote) ++ "b")] |};
       params := []; used_parameters := [] |}%string []
  = _form_duplicate_getparams
      {| klass := example_date_class;
         request := {| GET := [("q" ++ (quote ++ " value=" ++ quote) ++ "a", "b")] |};
         params := []; used_parameters := [] |}%string [].
Proof.
  apply (form_duplicate_getparams_does_not_escape example_date_class [] []
           "q" "a" "b")%string.
  discriminate.
Defined.

(** *** The date range form *)

Lemma append_neq_longer (a b c : string) :
  String.length b <> String.length c -> (a ++ b)%string <> (a ++ c)%string.
Proof.
  intros H E. apply (f_equal String.length) in E. rewrite !append_length in E. lia.
Qed.

(** X3.  The form of the date range filter always has the same four fields,
    in this order: the display field and the hidden field of the lower bound,
    then those of the upper bound.  Its data only ever fills the two display
    fields, each with the non-empty value the request gives for its bound;
    the hidden fields, whose values the query uses, never get data. *)
Theorem get_form_fields_and_data (self : FiltrateFilter) :
  let from_name := (parameter_name (klass self) ++ "__gte")%string in
  let to_name := (parameter_name (klass self) ++ "__lte")%string in
  map fst (fields (_get_form self))
  = [(from_name ++ "__alt")%string; from_name; (to_name ++ "__alt")%string; to_name]
  /\ (forall k v,
        In (k, v) (data (_get_form self))
        <-> v <> EmptyString
            /\ ((k = (from_name ++ "__alt")%string
                 /\ dict_get (GET (request self)) from_name = Some v)
                \/ (k = (to_name ++ "__alt")%string
                    /\ dict_get (GET (request self)) to_name = Some v)))
  /\ dict_get (data (_get_form self)) from_name = None
  /\ dict_get (data (_get_form self)) to_name = None.
Proof.
  intros from_name to_name.
  assert (N1 : (from_name ++ "__alt")%string <> from_name).
  { intros E. apply (f_equal String.length) in E. rewrite append_length in E.
    cbn in E. lia. }
  assert (N2 : (to_name ++ "__alt")%string <> to_name).
  { intros E. apply (f_equal String.length) in E. rewrite append_length in E.
    cbn in E. lia. }
  assert (N3 : (from_name ++ "__alt")%string <> to_name).
  { unfold from_name, to_name. rewrite append_assoc.
    apply append_neq_longer. cbn. lia. }
  assert (N4 : (to_name ++ "__alt")%string <> from_name).
  { unfold from_name, to_name. rewrite append_assoc.
    apply append_neq_longer. cbn. lia. }
  set (entry := fun name : string =>
         match dict_get (GET (request self)) name with
         | Some d => if String.eqb d "" then [] else [((name ++ "__alt")%string, d)]
         | None => []
         end).
  assert (D : data (_get_form self) = entry from_name ++ entry to_name).
  { unfold _get_form, add_data, dict_set, entry. cbn [data].
    fold from_name. fold to_name.
    destruct (dict_get (GET (request self)) from_name) as [d1|];
      destruct (dict_get (GET (request self)) to_name) as [d2|];
      try destruct (String.eqb d1 ""); try destruct (String.eqb d2 "");
      reflexivity. }
  assert (HE : forall name k v,
             In (k, v) (entry name)
             <-> v <> EmptyString
                 /\ k = (name ++ "__alt")%string
                 /\ dict_get (GET (request self)) name = Some v).
  { intros name k v. unfold entry.
    destruct (dict_get (GET (request self)) name) as [d|].
    - destruct (String.eqb_spec d "") as [-> | Hd]; cbn [In].
      + split; [intros [] | intros (Hv & _ & E); congruence].
      + split.
        * intros [E | []]. injection E as <- <-. auto.
        * intros (_ & -> & E). injection E as ->. left. reflexivity.
    - split; [intros [] | intros (_ & _ & E); discriminate E]. }
  assert (HN : forall key,
             key <> (from_name ++ "__alt")%string ->
             key <> (to_name ++ "__alt")%string ->
             dict_get (entry from_name ++ entry to_name) key = None).
  { intros key K1 K2. apply dict_contains_get. unfold dict_contains.
    rewrite existsb_app, orb_false_iff.
    split; apply not_true_iff_false; rewrite existsb_exists;
      intros ([k v] & Hin & E); apply HE in Hin; destruct Hin as (_ & -> & _);
      cbn [fst] in E; apply String.eqb_eq in E; congruence. }
  split; [reflexivity |]. rewrite D. split; [| split].
  - intros k v. rewrite in_app_iff, !HE. tauto.
  - apply HN; congruence.
  - apply HN; congruence.
Qed.

(** *** Construction *)

(** X4.  On a model admin without a [Media] class no filter can be
    constructed: both constructors raise [AttributeError] and leave the model
    admin as it was, whatever the request holds; a malformed selection is not
    even looked at. *)
Theorem init_requires_admin_media {ML : MediaLib} (cls : TreeClass)
  (request : HttpRequest) (params : Dict) (model_admin : ModelAdmin) :
  admin_Media model_admin = None ->
  FiltrateFilter_init (tree_base cls) request params model_admin
  = (Raise AttributeError, model_admin)
  /\ TreeFilter_init cls request params model_admin
     = (Raise AttributeError, model_admin).
Proof.
  destruct model_admin as [[decl |]]; cbn [admin_Media]; [discriminate |].
  intros _. unfold TreeFilter_init. rewrite init_without_admin_media.
  split; reflexivity.
Qed.

Lemma init_requires_admin_media_witness :
  FiltrateFilter_init (ML := AppendMedia) (tree_base (example_tree_class INCLUDE))
    {| GET := [("dept_id", "x")] |}%string [("dept_id", "x")]%string
    {| admin_Media := None |}
  = (Raise AttributeError, {| admin_Media := None |})
  /\ TreeFilter_init (ML := AppendMedia) (example_tree_class INCLUDE)
       {| GET := [("dept_id", "x")] |}%string [("dept_id", "x")]%string
       {| admin_Media := None |}
     = (Raise AttributeError, {| admin_Media := None |}).
Proof.
  apply (init_requires_admin_media (ML := AppendMedia) (example_tree_class INCLUDE)).
  reflexivity.
Defined.




Lemma split_app_sep (sep : ascii) (l r : string) :
  split sep (l ++ String sep r) = split sep l ++ split sep r.
Proof.
  induction l as [|c l IH]; cbn [append split].
  - rewrite Ascii.eqb_refl. reflexivity.
  - destruct (Ascii.eqb c sep); [rewrite IH; reflexivity |].
    rewrite IH. pose proof (split_nonempty sep l) as N.
    destruct (split sep l); [contradiction | reflexivity].
Qed.

Lemma mapM_int_empty_field (fields : list string) :
  In EmptyString fields -> mapM int fields = Raise ValueError.
Proof.
  intros H.
  pose proof (mapM_fails int fields EmptyString H eq_refl) as F.
  destruct (mapM int fields) as [ids | e] eqn:E; [discriminate F |].
  rewrite (mapM_int_raises _ _ E). reflexivity.
Qed.

(** X6.  A parameter value with an empty field makes [TreeFilter.__init__]
    raise [ValueError]: the empty value (what the form's hidden input holds
    before anything is selected), a value that begins or ends with a comma,
    and a value with two commas in a row. *)
Theorem TreeFilter_init_empty_field {ML : MediaLib} (cls : TreeClass)
  (request : HttpRequest) (params : Dict) (decl : MediaDecl) (v : string) :
  dict_get params (parameter_name (tree_base cls)) = Some v ->
  v = EmptyString
  \/ (exists r, v = ("," ++ r)%string)
  \/ (exists l, v = (l ++ ",")%string)
  \/ (exists l r, v = (l ++ ",," ++ r)%string) ->
  fst (TreeFilter_init cls request params {| admin_Media := Some decl |})
  = Raise ValueError.
Proof.
  intros Hv Hshape. rewrite TreeFilter_init_some. cbv zeta. rewrite Hv.
  rewrite mapM_int_empty_field; [reflexivity |].
  destruct Hshape as [-> | [[r ->] | [[l ->] | (l & r & ->)]]].
  - left. reflexivity.
  - cbn [append split]. left. reflexivity.
  - change (l ++ ",")%string with (l ++ String "," EmptyString)%string.
    rewrite split_app_sep. apply in_or_app. right. left. reflexivity.
  - change (l ++ ",," ++ r)%string with (l ++ String "," (String "," r))%string.
    rewrite split_app_sep. apply in_or_app. right. cbn [split].
    left. reflexivity.
Qed.

Lemma TreeFilter_init_empty_field_witness :
  fst (TreeFilter_init (ML := AppendMedia) (example_tree_class INCLUDE)
         {| GET := [("dept_id", "")] |}%string [("dept_id", "")]%string
         {| admin_Media := Some empty_media |})
  = Raise ValueError.
Proof.
  apply (TreeFilter_init_empty_field (ML := AppendMedia) (example_tree_class INCLUDE)
           {| GET := [("dept_id", "")] |}%string [("dept_id", "")]%string
           empty_media EmptyString).
  - reflexivity.
  - left. reflexivity.
Defined.

Lemma dict_get_remove (d : Dict) (key k : string) :
  dict_get (dict_remove d key) k
  = if String.eqb k key then None else dict_get d k.
Proof.
  unfold dict_remove. induction d as [|[k0 v0] d IH]; cbn [filter dict_get fst].
  - destruct (String.eqb k key); reflexivity.
  - destruct (String.eqb k0 key) eqn:E0; cbn [negb dict_get]; rewrite IH;
      destruct (String.eqb k key) eqn:Ek; try reflexivity.
    + apply String.eqb_eq in E0. subst k0.
      destruct (dict_get d k); [reflexivity |].
      rewrite String.eqb_sym, Ek. reflexivity.
    + apply String.eqb_eq in Ek. subst k. rewrite E0. reflexivity.
Qed.

(** X7.  When the query parameters hold the filter's key with value [v], the
    base filter returns [queryset.filter] with the single keyword argument
    [parameter_name = v], and so does the date range filter, which has no
    [queryset] of its own: it compares the field with [v] and still ignores
    the two bounds. *)
Theorem queryset_equality_with_key {ML : MediaLib} (cls : FilterClass)
  (request : HttpRequest) (params : Dict) (decl : MediaDecl) (queryset : QuerySet)
  (v : string) :
  dict_get params (parameter_name cls) = Some v ->
  exists self model_admin',
    FiltrateFilter_init cls request params {| admin_Media := Some decl |}
    = (Ok self, model_admin')
    /\ value self = Some v
    /\ FiltrateFilter_queryset self queryset
       = QFilter queryset [(parameter_name cls, AStr v)]
    /\ DateRangeFilter_queryset self queryset
       = QFilter queryset [(parameter_name cls, AStr v)].
Proof.
  intros Hv. rewrite FiltrateFilter_init_some. eexists _, _.
  split; [reflexivity |].
  assert (V : value
                {| klass := cls; request := request;
                   params := snd (SimpleListFilter_init (parameter_name cls) params);
                   used_parameters :=
                     fst (SimpleListFilter_init (parameter_name cls) params) |}
              = Some v).
  { unfold value. cbn [klass used_parameters]. rewrite value_after_init. exact Hv. }
  split; [exact V |].
  unfold DateRangeFilter_queryset, FiltrateFilter_queryset. rewrite V.
  split; reflexivity.
Qed.

Lemma queryset_equality_with_key_witness :
  exists self model_admin',
    FiltrateFilter_init (ML := AppendMedia) example_date_class
      {| GET := [("created", "2020-05-01"); ("created__gte", "2020-01-01")] |}%string
      [("created", "2020-05-01"); ("created__gte", "2020-01-01")]%string
      {| admin_Media := Some empty_media |}
    = (Ok self, model_admin')
    /\ value self = Some "2020-05-01"%string
    /\ FiltrateFilter_queryset self QAll
       = QFilter QAll [(parameter_name example_date_class, AStr "2020-05-01"%string)]
    /\ DateRangeFilter_queryset self QAll
       = QFilter QAll [(parameter_name example_date_class, AStr "2020-05-01"%string)].
Proof.
  apply (queryset_equality_with_key (ML := AppendMedia) example_date_class).
  reflexivity.
Defined.

(** X8.  Construction takes the filter's own key out of the [params] dict it
    was handed, which the instance keeps as [self.params], and nothing else:
    every other key still has the value it had. *)
Theorem init_pops_own_parameter {ML : MediaLib} (cls : FilterClass)
  (request : HttpRequest) (params : Dict) (decl : MediaDecl) :
  exists self model_admin',
    FiltrateFilter_init cls request params {| admin_Media := Some decl |}
    = (Ok self, model_admin')
    /\ dict_get (Filtrate.params self) (parameter_name cls) = None
    /\ (forall k, k <> parameter_name cls ->
                  dict_get (Filtrate.params self) k = dict_get params k)
    /\ value self = dict_get params (parameter_name cls).
Proof.
  rewrite FiltrateFilter_init_some. eexists _, _. split; [reflexivity |].
  unfold value. cbn [Filtrate.params klass used_parameters].
  rewrite value_after_init. unfold SimpleListFilter_init.
  destruct (dict_get params (parameter_name cls)) as [v|] eqn:E; cbn [snd].
  - split; [| split; [| reflexivity]].
    + rewrite dict_get_remove, String.eqb_refl. reflexivity.
    + intros k Hk. rewrite dict_get_remove. apply String.eqb_neq in Hk.
      rewrite Hk. reflexivity.
  - split; [exact E |]. split; [reflexivity | reflexivity].
Qed.

Lemma init_pops_own_parameter_witness :
  exists self model_admin',
    FiltrateFilter_init (ML := AppendMedia) example_date_class {| GET := [] |}
      [("page", "2"); ("created", "2020-05-01")]%string
      {| admin_Media := Some empty_media |}
    = (Ok self, model_admin')
    /\ dict_get (Filtrate.params self) "created" = None
    /\ dict_get (Filtrate.params self) "page" = Some "2"%string.
Proof.
  destruct (init_pops_own_parameter (ML := AppendMedia) example_date_class
              {| GET := [] |} [("page", "2"); ("created", "2020-05-01")]%string
              empty_media)
    as (self & model_admin' & E & Hown & Hrest & _).
  exists self, model_admin'. split; [exact E |]. split; [exact Hown |].
  rewrite (Hrest "page"%string); [reflexivity | discriminate].
Defined.


(** *** Rendering *)

(** X10.  [choices] calls [self.get_title()] without the [request] argument
    that [get_title(self, request)] requires, and it does so before it asks
    for the content: whatever [get_content] would return or raise, [choices]
    raises [TypeError]. *)
Theorem choices_raises_type_error (self : FiltrateFilter)
  (get_content : HttpRequest -> Result string) :
  choices self get_content = Raise TypeError
  /\ forall request, get_title_call self [request] = Ok (title (klass self)).
Proof.
  split; [reflexivity | intros request; reflexivity].
Qed.

(** X11.  [TreeFilter.get_content] fails exactly when [get_tree] or the
    serialization of its tree fails, and then with their exception (with the
    [get_tree] of [TreeFilter] itself: [NotImplementedError]); echoing the
    query parameters never fails.  Otherwise the content is the template
    filled with the tree's JSON text, the filter's key as the name of the
    hidden input, and the echo of the query parameters other than that key
    and the pagination key. *)
Theorem TreeFilter_get_content_outcome (self : TreeFilter) (tree : Result PyObj) :
  let key := parameter_name (klass (super self)) in
  match tree with
  | Raise e => TreeFilter_get_content self tree = Raise e
  | Ok t =>
      match _tree_to_json self t with
      | Raise e => TreeFilter_get_content self tree = Raise e
      | Ok text =>
          exists pairs,
            TreeFilter_get_content self tree
            = Ok (tree_template text key
                    (join "" (map (fun kv => hidden_input (fst kv) (snd kv)) pairs)))
            /\ forall k v,
                 In (k, v) pairs
                 <-> dict_get (GET (request (super self))) k = Some v
                     /\ k <> key /\ k <> "e"%string
      end
  end
  /\ TreeFilter_get_content self get_tree = Raise NotImplementedError.
Proof.
  intros key. split; [| reflexivity].
  destruct tree as [t | e]; [| reflexivity].
  unfold TreeFilter_get_content. cbn [bind].
  destruct (_tree_to_json self t) as [text | e]; [| reflexivity]. cbn [bind].
  rewrite form_duplicate_getparams_eq. cbn [bind]. fold key.
  exists (echoed (GET (request (super self))) [key]). split; [reflexivity |].
  intros k v. rewrite echoed_In. cbn [In]. intuition congruence.
Qed.

(** X12.  [DateRangeFilter.get_content] never fails, and what it echoes of
    the query parameters leaves out the four fields of its own form and the
    pagination key: a bound already in the request is not repeated as a
    hidden input next to the form's own field of that name. *)
Theorem DateRangeFilter_get_content_echo (as_p : Form -> string)
  (gettext : string -> string) (datepicker_region datepicker_date_format : string)
  (self : FiltrateFilter) :
  let from_name := (parameter_name (klass self) ++ "__gte")%string in
  let to_name := (parameter_name (klass self) ++ "__lte")%string in
  exists pairs,
    DateRangeFilter_get_content as_p gettext datepicker_region datepicker_date_format
      self
    = Ok (daterange_template datepicker_region datepicker_date_format
            (as_p (_get_form self)) (gettext "Apply filter"%string)
            (join "" (map (fun kv => hidden_input (fst kv) (snd kv)) pairs)))
    /\ forall k v,
         In (k, v) pairs
         <-> dict_get (GET (request self)) k = Some v
             /\ k <> (from_name ++ "__alt")%string /\ k <> from_name
             /\ k <> (to_name ++ "__alt")%string /\ k <> to_name
             /\ k <> "e"%string.
Proof.
  intros from_name to_name. unfold DateRangeFilter_get_content. cbv zeta.
  rewrite form_duplicate_getparams_eq. cbn [bind].
  exists (echoed (GET (request self)) (map fst (fields (_get_form self)))).
  split; [reflexivity |]. intros k v. rewrite echoed_In.
  change (map fst (fields (_get_form self)))
    with [(from_name ++ "__alt")%string; from_name;
          (to_name ++ "__alt")%string; to_name].
  cbn [In]. intuition congruence.
Qed.

(** *** More on tree serialization *)

Lemma mapM_first_error {A B : Type} (f : A -> Result B) (good : list A) (bad : A)
  (rest : list A) (e : PyExc) :
  (forall x, In x good -> is_ok (f x) = true) ->
  f bad = Raise e ->
  mapM f (good ++ bad :: rest) = Raise e.
Proof.
  induction good as [|x good IH]; intros Hgood Hbad; cbn [app mapM].
  - rewrite Hbad. reflexivity.
  - fold (mapM f). pose proof (Hgood x (or_introl eq_refl)) as Hx.
    destruct (f x); [| discriminate Hx]. cbn [bind].
    rewrite IH; [reflexivity | | exact Hbad].
    intros y Hy. apply Hgood. right. exact Hy.
Qed.

(** X14.  Serialization stops at the first node that cannot be serialized,
    in the order of the walk, and raises that node's exception: the nodes
    after it are not looked at, at the top of the tree as well as among the
    children of a parent. *)
Theorem tree_to_json_first_error (self : TreeFilter) (tree : PyObj)
  (good : list PyObj) (bad : PyObj) (rest : list PyObj) (e : PyExc) :
  (forall n, In n good -> is_ok (parse_node (selected_nodes self) n) = true) ->
  parse_node (selected_nodes self) bad = Raise e ->
  (ob_items tree = Some (good ++ bad :: rest) ->
   _tree_to_json self tree = Raise e)
  /\ (forall s pk label_obj title children_obj extra,
        force_str label_obj = Ok title ->
        ob_items children_obj = Some (good ++ bad :: rest) ->
        parse_node (selected_nodes self)
          (PyObject TyTuple s pk (Some (label_obj :: children_obj :: extra)))
        = Raise e).
Proof.
  intros Hgood Hbad.
  pose proof (mapM_first_error (parse_node (selected_nodes self)) good bad rest e
                Hgood Hbad) as M.
  split.
  - intros Hitems. unfold _tree_to_json, parse_tree, iterate.
    rewrite Hitems. cbn [bind]. rewrite M. reflexivity.
  - intros s pk label_obj title children_obj extra Hl Hc.
    rewrite parse_node_tuple, Hl. cbn [bind]. unfold parse_tree, iterate.
    rewrite Hc. cbn [bind]. rewrite M. reflexivity.
Qed.

Lemma tree_to_json_first_error_witness :
  _tree_to_json (example_tree_filter INCLUDE [5]%Z)
    (py_tuple [py_instance 5 "Sales"; py_tuple [py_str "Research"];
               py_str "never reached"])%string
  = Raise IndexError.
Proof.
  destruct (tree_to_json_first_error (example_tree_filter INCLUDE [5]%Z)
              (py_tuple [py_instance 5 "Sales"; py_tuple [py_str "Research"];
                         py_str "never reached"])%string
              [py_instance 5 "Sales"]%string (py_tuple [py_str "Research"])%string
              [py_str "never reached"]%string IndexError) as [H _].
  - intros n [<- | []]. reflexivity.
  - reflexivity.
  - apply H. reflexivity.
Defined.















Lemma mapM_ext_Forall {A B : Type} (f g : A -> Result B) (xs : list A) :
  Forall (fun x => f x = g x) xs -> mapM f xs = mapM g xs.
Proof.
  induction 1 as [|x xs Hx _ IH]; [reflexivity |].
  cbn [mapM]. fold (mapM f). fold (mapM g). rewrite Hx, IH. reflexivity.
Qed.

Lemma parse_node_same_members (sel sel' : list Z) (o : PyObj) :
  (forall pk, contains pk sel = contains pk sel') ->
  parse_node sel o = parse_node sel' o
  /\ (forall nodes, ob_items o = Some nodes ->
                    mapM (parse_node sel) nodes = mapM (parse_node sel') nodes).
Proof.
  intros Hc. induction o as [ty s pk | ty s pk items IH] using PyObj_ind'.
  - split; [| intros nodes H; discriminate H].
    destruct ty; [reflexivity | |]; cbn [parse_node]; destruct s; cbn [bind];
      try reflexivity; destruct pk; try reflexivity; rewrite Hc; reflexivity.
  - assert (M : mapM (parse_node sel) items = mapM (parse_node sel') items).
    { apply mapM_ext_Forall. eapply Forall_impl; [| exact IH].
      intros x [Hx _]. exact Hx. }
    split.
    + destruct ty.
      * destruct items as [|n0 [|n1 extra]]; [reflexivity | reflexivity |].
        rewrite !parse_node_tuple. destruct (force_str n0); [| reflexivity].
        cbn [bind]. unfold parse_tree, iterate.
        destruct (ob_items n1) as [children |] eqn:E1; [| reflexivity].
        cbn [bind]. inversion IH as [|? ? _ IH']; subst.
        inversion IH' as [|? ? [_ H1] _]; subst.
        rewrite (H1 children E1). reflexivity.
      * cbn [parse_node]. destruct s; cbn [bind]; [| reflexivity].
        destruct pk; [rewrite Hc |]; reflexivity.
      * cbn [parse_node]. destruct s; cbn [bind]; [| reflexivity].
        destruct pk; [rewrite Hc |]; reflexivity.
    + intros nodes E. cbn [ob_items] in E. injection E as <-. exact M.
Qed.

(** X17.  The serialized tree depends on the selection only as a set: two
    filters whose selections have the same members, in whatever order and
    however often repeated, give the same result on every tree, the same
    text or the same exception. *)
Theorem tree_to_json_selection_as_set (self self' : TreeFilter) (tree : PyObj) :
  (forall pk, In pk (selected_nodes self) <-> In pk (selected_nodes self')) ->
  _tree_to_json self tree = _tree_to_json self' tree.
Proof.
  intros H.
  assert (Hc : forall pk,
             contains pk (selected_nodes self) = contains pk (selected_nodes self')).
  { intros pk. unfold contains.
    destruct (existsb (Z.eqb pk) (selected_nodes self)) eqn:E1;
      destruct (existsb (Z.eqb pk) (selected_nodes self')) eqn:E2; try reflexivity.
    - apply existsb_exists in E1. destruct E1 as (x & Hx & Ex).
      apply Z.eqb_eq in Ex. subst x. apply H in Hx.
      assert (T : existsb (Z.eqb pk) (selected_nodes self') = true)
        by (apply existsb_exists; exists pk; split; [exact Hx | apply Z.eqb_refl]).
      congruence.
    - apply existsb_exists in E2. destruct E2 as (x & Hx & Ex).
      apply Z.eqb_eq in Ex. subst x. apply H in Hx.
      assert (T : existsb (Z.eqb pk) (selected_nodes self) = true)
        by (apply existsb_exists; exists pk; split; [exact Hx | apply Z.eqb_refl]).
      congruence. }
  unfold _tree_to_json, parse_tree, iterate.
  destruct (ob_items tree) as [nodes |] eqn:E; [| reflexivity]. cbn [bind].
  rewrite (proj2 (parse_node_same_members _ _ tree Hc) nodes E). reflexivity.
Qed.

Lemma tree_to_json_selection_as_set_witness :
  _tree_to_json (example_tree_filter INCLUDE [5; 8]%Z) example_tree
  = _tree_to_json (example_tree_filter INCLUDE [8; 5; 8]%Z) example_tree.
Proof.
  apply (tree_to_json_selection_as_set (example_tree_filter INCLUDE [5; 8]%Z)
           (example_tree_filter INCLUDE [8; 5; 8]%Z) example_tree).
  intros pk. cbn [example_tree_filter selected_nodes In]. tauto.
Defined.

(** X18.  From the request to the query: when the filter's parameter holds
    the comma-separated text of a non-empty list of integers, each of at
    most [max_str_digits] digits, the filter that
    [TreeFilter.__init__] builds translates, in INCLUDE mode, to
    [queryset.filter] with exactly that list as the value of the query field
    ([query_name], or [parameter_name] without one), and in EXCLUDE mode to
    [queryset.exclude] with the same keyword argument. *)
Theorem request_to_query {ML : MediaLib} (cls : TreeClass) (request : HttpRequest)
  (params : Dict) (decl : MediaDecl) (ids : list Z) (queryset : QuerySet) :
  let name :=
    match query_name cls with
    | None => parameter_name (tree_base cls)
    | Some n => n
    end in
  ids <> [] ->
  Forall (fun z => (decimal_digits z <= max_str_digits)%N) ids ->
  dict_get params (parameter_name (tree_base cls))
  = Some (join "," (map str_int ids)) ->
  exists self model_admin',
    TreeFilter_init cls request params {| admin_Media := Some decl |}
    = (Ok self, model_admin')
    /\ (query_mode cls = INCLUDE ->
        TreeFilter_queryset self queryset
        = Ok (QFilter queryset [(name, AInts ids)]))
    /\ (query_mode cls = EXCLUDE ->
        TreeFilter_queryset self queryset
        = Ok (QExclude queryset [(name, AInts ids)])).
Proof.
  intros name Hne Hb Hv. rewrite TreeFilter_init_some. cbv zeta.
  rewrite Hv, (parse_id_list ids Hne Hb). eexists _, _. split; [reflexivity |].
  unfold TreeFilter_queryset. cbn [selected_nodes tree_class super klass].
  fold name. destruct ids as [|id ids']; [contradiction |].
  split; intros ->; reflexivity.
Qed.

Lemma request_to_query_witness :
  exists self model_admin',
    TreeFilter_init (ML := AppendMedia) (example_tree_class EXCLUDE)
      {| GET := [] |} [("dept_id", "5,-7,5")]%string
      {| admin_Media := Some empty_media |}
    = (Ok self, model_admin')
    /\ TreeFilter_queryset self QAll
       = Ok (QExclude QAll [("dept_id"%string, AInts [5; -7; 5]%Z)]).
Proof.
  destruct (request_to_query (ML := AppendMedia) (example_tree_class EXCLUDE)
              {| GET := [] |} [("dept_id", "5,-7,5")]%string empty_media
              [5; -7; 5]%Z QAll ltac:(discriminate)
              ltac:(repeat constructor; vm_compute; discriminate) eq_refl)
    as (self & model_admin' & E & _ & Hexc).
  exists self, model_admin'. split; [exact E | apply Hexc; reflexivity].
Defined.
